(** * Thera pipeline: matching service and training pipeline

    A shallow embedding of the scoring code of [lambda-matcher.py] and
    [matcher-scoring-snippet.py] and of the training jobs
    [lambda-ml-training/lambda_function.py] and [lambda-weekly-trainer.py],
    with the properties the specification states about them.

    Conventions of the embedding.
    - Python [str] is [string]; the texts are taken to be ASCII, so
      [str.lower] maps the letters [A]..[Z] and nothing else.
    - Python [float] is a real number ([R]) in the scoring code, which uses
      [exp] and [sqrt]; rounding, overflow and NaN are outside that model.
    - In the training jobs a number of the table or of a JSON document is
      the rational its digits denote ([Q]): the jobs move these numbers
      and do no arithmetic on them, but for [compare_models], which
      subtracts two metrics and compares the difference with [0.01].  That
      arithmetic is done as Python does it, on IEEE 754 doubles: the type
      [float] with the binary64 operations of the kernel, the operands
      rounded to the nearest double by [to_double].  A JSON number is read
      as a float, as the metrics are; an integer too large for a double is
      outside the model.
    - A [dict] is a [gmap] keyed by strings; a JSON document is a [json]
      value.
    - A Python exception is a value [Raise e] of the type [result]; a
      [try ... except] is a [match] on it. *)

From Stdlib Require Import Floats.
From Stdlib Require Import Reals Lra QArith Lia List Ascii String.
From Stdlib Require Import Sorting.Sorted Permutation.
From Stdlib Require Lqa.
From stdpp Require Import gmap strings list fin_maps pretty.

(** A decimal literal of a float stands for the nearest double, as it does
    in Python. *)
Set Warnings "-inexact-float".

(** ** Exceptions *)

Inductive exn : Type :=
| KeyError (key : string)
| TypeError
| AttributeError
| ValueError (msg : string)
| ServiceError (msg : string).

Inductive result (A : Type) : Type :=
| Ok (a : A)
| Raise (e : exn).

Arguments Ok {A} a.
Arguments Raise {A} e.

#[global] Instance result_ret : MRet result := fun A a => Ok a.

#[global] Instance result_bind : MBind result := fun A B k r =>
  match r with
  | Ok a => k a
  | Raise e => Raise e
  end.

(** ** Text: [str.lower] and the [in] operator on strings *)

Module Text.

Definition lower_ascii (c : ascii) : ascii :=
  let n := nat_of_ascii c in
  if ((65 <=? n)%nat && (n <=? 90)%nat)%bool then ascii_of_nat (n + 32) else c.

Fixpoint lower (s : string) : string :=
  match s with
  | EmptyString => EmptyString
  | String c s' => String (lower_ascii c) (lower s')
  end.

(** [needle in hay] *)
Fixpoint contains (needle hay : string) : bool :=
  if String.prefix needle hay then true
  else match hay with
       | EmptyString => false
       | String _ hay' => contains needle hay'
       end.

(** [bool(s)] for a string: the empty string is falsy. *)
Definition nonempty (s : string) : bool :=
  match s with
  | EmptyString => false
  | String _ _ => true
  end.

(** What [in] means: the needle occurs somewhere inside the haystack. *)
Definition occurs (needle hay : string) : Prop :=
  exists pre post : string, hay = (pre ++ needle ++ post)%string.

(** [c.isspace()] on an ASCII character: tab to carriage return, the four
    separators 28..31 and the space. *)
Definition is_space (c : ascii) : bool :=
  let n := nat_of_ascii c in
  (((9 <=? n)%nat && (n <=? 13)%nat) || ((28 <=? n)%nat && (n <=? 32)%nat))%bool.

(** [c.isupper()] on an ASCII character. *)
Definition is_upper (c : ascii) : bool :=
  let n := nat_of_ascii c in
  ((65 <=? n)%nat && (n <=? 90)%nat)%bool.

(** [s.split()]: the maximal runs of non-space characters, in order.
    [word] is the run being read. *)
Fixpoint split_from (word s : string) : list string :=
  match s with
  | EmptyString => if nonempty word then [word] else []
  | String c s' =>
      if is_space c
      then (if nonempty word then word :: split_from EmptyString s'
            else split_from EmptyString s')
      else split_from (word ++ String c EmptyString)%string s'
  end.

Definition split (s : string) : list string := split_from EmptyString s.

(** [sep.join(l)] *)
Fixpoint join (sep : string) (l : list string) : string :=
  match l with
  | [] => EmptyString
  | [x] => x
  | x :: rest => (x ++ sep ++ join sep rest)%string
  end.

(** [s.replace(old, '')] for a non-empty [old]: occurrences are removed from
    left to right without overlap.  [skip] counts the characters of a match
    still to be dropped. *)
Fixpoint remove_from (old : string) (skip : nat) (s : string) : string :=
  match s with
  | EmptyString => EmptyString
  | String c s' =>
      match skip with
      | S k => remove_from old k s'
      | O =>
          if String.prefix old s
          then remove_from old (String.length old - 1) s'
          else String c (remove_from old 0 s')
      end
  end.

Definition remove_all (old s : string) : string := remove_from old 0 s.

(** A word as [split] yields it: not empty and free of white space. *)
Fixpoint no_space (s : string) : bool :=
  match s with
  | EmptyString => true
  | String c s' => (negb (is_space c) && no_space s')%bool
  end.

Definition is_word (s : string) : bool := (nonempty s && no_space s)%bool.

End Text.

(** ** JSON documents, as [json.loads] yields them *)

#[warning="-register-all"]
Inductive json : Type :=
| JNull
| JBool (b : bool)
| JNum (q : Q)
| JStr (s : string)
| JList (l : list json)
| JDict (d : gmap string json).

(** ** The matching service: [lambda-matcher.py] *)

Module Matcher.

(** A candidate row as [get_candidates_from_athena] builds it.  A column the
    row does not carry is an absent key of the Python dict ([None] here). *)
Record candidate : Type := {
  company_key : string;
  company_name : option string;
  industry : option string;
  country : option string;
  embedding_vector : list R
}.

(** [industry_keywords] of [_extract_industry_from_text]; a Python dict
    literal iterates in the order it is written. *)
Definition industry_keywords : list (string * list string) :=
  [ ("technology", ["tech"; "software"; "ai"; "artificial intelligence";
                    "machine learning"; "data"; "cloud"; "saas"]);
    ("healthcare", ["health"; "medical"; "pharma"; "biotech"; "healthcare";
                    "medicine"]);
    ("finance", ["fintech"; "finance"; "banking"; "payments"; "crypto";
                 "blockchain"]);
    ("ecommerce", ["ecommerce"; "retail"; "marketplace"; "shopping";
                   "online store"]);
    ("education", ["education"; "edtech"; "learning"; "school"; "university"]);
    ("energy", ["energy"; "renewable"; "solar"; "wind"; "clean energy"]);
    ("transportation", ["transport"; "mobility"; "logistics"; "delivery";
                        "autonomous"]);
    ("real_estate", ["real estate"; "property"; "housing"; "construction"]) ].

(** [country_keywords] of [_extract_country_from_text]. *)
Definition country_keywords : list (string * list string) :=
  [ ("united states", ["usa"; "us"; "united states"; "america"]);
    ("canada", ["canada"; "canadian"]);
    ("united kingdom", ["uk"; "britain"; "england"; "united kingdom"]);
    ("germany", ["germany"; "german"]);
    ("france", ["france"; "french"]);
    ("australia", ["australia"; "australian"]);
    ("singapore", ["singapore"; "singaporean"]);
    ("india", ["india"; "indian"]);
    ("china", ["china"; "chinese"]);
    ("japan", ["japan"; "japanese"]) ].

(** The loop shared by the two extractors:
    [for label, keywords in table.items():
       if any(keyword in text_lower for keyword in keywords): return label]
    and [return ''] after it. *)
Fixpoint first_label (table : list (string * list string))
    (text_lower : string) : string :=
  match table with
  | [] => EmptyString
  | (label, keywords) :: rest =>
      if existsb (fun keyword => Text.contains keyword text_lower) keywords
      then label
      else first_label rest text_lower
  end.

Definition _extract_industry_from_text (text : string) : string :=
  first_label industry_keywords (Text.lower text).

Definition _extract_country_from_text (text : string) : string :=
  first_label country_keywords (Text.lower text).

(** [candidate.get(field, '').lower()] *)
Definition field_lower (field : option string) : string :=
  Text.lower (default EmptyString field).

(** The [industry_match] entry of [calculate_rule_features]. *)
Definition industry_match (challenge_text : string) (c : candidate) : R :=
  let challenge_industry := _extract_industry_from_text challenge_text in
  let candidate_industry := field_lower (industry c) in
  if (Text.nonempty challenge_industry
      && Text.contains challenge_industry candidate_industry)%bool
  then 1%R else 0%R.

(** The [geo_match] entry of [calculate_rule_features]. *)
Definition geo_match (challenge_text : string) (c : candidate) : R :=
  let challenge_country := _extract_country_from_text challenge_text in
  let candidate_country := field_lower (country c) in
  if (Text.nonempty challenge_country
      && Text.contains challenge_country candidate_country)%bool
  then 1%R else 0%R.

(** The dict [calculate_rule_features] returns, as a record of its entries.
    The [name_similarity] entry is left out: it is computed last, cannot
    raise, and is read only by the rationale text, which is not modelled. *)
Record rule_features_dict : Type := {
  rf_industry_match : R;
  rf_geo_match : R
}.

Definition calculate_rule_features (challenge_text : string) (c : candidate)
    : rule_features_dict :=
  {| rf_industry_match := industry_match challenge_text c;
     rf_geo_match := geo_match challenge_text c |}.

(** *** Embedding similarity *)

(** [numpy.dot] of two vectors of one length. *)
Definition dot (a b : list R) : R :=
  fold_right Rplus 0%R (zip_with Rmult a b).

Definition norm (v : list R) : R := sqrt (dot v v).

(** scikit-learn's [cosine_similarity] on two one-row matrices, as its
    documentation and source give it: a [ValueError] when the rows differ
    in length; otherwise each row is divided by its Euclidean norm, a zero
    norm being replaced by 1, and the two unit rows are multiplied. *)
Definition handle_zeros_in_scale (n : R) : R :=
  if Req_dec_T n 0 then 1%R else n.

Definition normalize (v : list R) : list R :=
  map (fun x => (x / handle_zeros_in_scale (norm v))%R) v.

Definition cosine_similarity (x y : list R) : result R :=
  if Nat.eqb (length x) (length y)
  then Ok (dot (normalize x) (normalize y))
  else Raise (ValueError "Incompatible dimension for X and Y matrices").

(** [not embedding] for a list: the empty list is falsy. *)
Definition is_empty {A : Type} (l : list A) : bool :=
  match l with
  | [] => true
  | _ :: _ => false
  end.

Definition calculate_cosine_similarity (embedding1 embedding2 : list R) : R :=
  let body : result R :=
    if (is_empty embedding1 || is_empty embedding2)%bool then Ok 0%R
    else similarity ← cosine_similarity embedding1 embedding2;
         Ok similarity in
  match body with
  | Ok r => r
  | Raise _ => 0%R
  end.

(** *** The learned score *)

Record model_artifact : Type := {
  coefficients : list R;
  intercept : R;
  feature_order : list string
}.

(** The model [load_ml_model] falls back to. *)
Definition default_model : model_artifact :=
  {| coefficients := [0.5; 0.3; 0.2]%R;
     intercept := 0%R;
     feature_order := ["embedding_similarity"; "industry_match"; "geo_match"] |}.

(** [s3_model] is the outcome of fetching and parsing the stored model. *)
Definition load_ml_model (s3_model : result model_artifact) : model_artifact :=
  match s3_model with
  | Ok model_data => model_data
  | Raise _ => default_model
  end.

Definition sigmoid (x : R) : R := (1 / (1 + exp (- x)))%R.

(** [calculate_ml_score]; [sum(...)] adds from 0, left to right, over the
    [zip], which stops at the shorter of its two lists. *)
Definition calculate_ml_score (model : model_artifact)
    (features : gmap string R) : R :=
  let feature_values :=
    map (fun feature_name =>
           match features !! feature_name with
           | Some v => v
           | None => 0%R
           end) (feature_order model) in
  let score :=
    fold_left (fun acc cv => (acc + fst cv * snd cv)%R)
              (zip (coefficients model) feature_values) 0%R in
  let score := (score + intercept model)%R in
  (1 / (1 + exp (- score)))%R.

(** *** Ranking *)

Record match_result : Type := {
  result_company_key : string;
  embedding_similarity : R;
  ml_score : R;
  final_score : R;
  rule_features : rule_features_dict
}.

(** The body of the loop of [find_matches] for one candidate. *)
Definition score_candidate (model : model_artifact)
    (challenge_text : string) (challenge_embedding : list R)
    (c : candidate) : match_result :=
  let embedding_sim :=
    calculate_cosine_similarity challenge_embedding (embedding_vector c) in
  let rule_features := calculate_rule_features challenge_text c in
  let ml_score :=
    calculate_ml_score model
      (<["geo_match" := rf_geo_match rule_features]>
        (<["industry_match" := rf_industry_match rule_features]>
          (<["embedding_similarity" := embedding_sim]> ∅))) in
  let final_score := (0.7 * embedding_sim + 0.3 * ml_score)%R in
  {| result_company_key := company_key c;
     embedding_similarity := embedding_sim;
     ml_score := ml_score;
     final_score := final_score;
     rule_features := rule_features |}.

(** [results.sort(key=lambda x: x['final_score'], reverse=True)]: a stable
    sort, larger scores first. *)
Fixpoint insert_by_score (x : match_result) (l : list match_result)
    : list match_result :=
  match l with
  | [] => [x]
  | y :: l' =>
      if Rle_dec (final_score y) (final_score x) then x :: y :: l'
      else y :: insert_by_score x l'
  end.

Definition sort_by_score (l : list match_result) : list match_result :=
  fold_right insert_by_score [] l.

(** [l[:k]] for a Python int [k]: a negative [k] counts from the end. *)
Definition slice_to {A : Type} (k : Z) (l : list A) : list A :=
  if (0 <=? k)%Z then take (Z.to_nat k) l
  else take (length l - Z.to_nat (- k)) l.

(** [int(os.environ.get('MAX_CANDIDATES', '5000'))] and
    [int(os.environ.get('TOP_RESULTS', '20'))]. *)
Definition max_candidates_setting (env_value : option Z) : Z :=
  default 5000%Z env_value.

Definition top_results_setting (env_value : option Z) : Z :=
  default 20%Z env_value.

(** The collaborators of one request and the two limits read from the
    environment. *)
Record services : Type := {
  get_embedding : string -> result (list R);
  get_candidates_from_athena :
    option string -> option string -> Z -> result (list candidate);
  s3_model : result model_artifact;
  MAX_CANDIDATES : Z;
  TOP_RESULTS : Z
}.

Definition find_matches (sv : services) (challenge_text : string)
    (industry country : option string) : result (list match_result) :=
  challenge_embedding ← get_embedding sv challenge_text;
  candidates ← get_candidates_from_athena sv industry country (MAX_CANDIDATES sv);
  if is_empty candidates then Ok []
  else
    let results :=
      map (score_candidate (load_ml_model (s3_model sv))
                           challenge_text challenge_embedding) candidates in
    Ok (slice_to (TOP_RESULTS sv) (sort_by_score results)).

(** The order the ranking promises: larger scores first. *)
Definition by_score_desc (x y : match_result) : Prop :=
  (final_score x >= final_score y)%R.

(** The taxonomy entry a text resolves to, as the specification words it:
    the first entry one of whose keywords occurs in the text. *)
Definition resolves_to (table : list (string * list string))
    (text_lower label : string) : Prop :=
  exists before keywords after,
    table = before ++ (label, keywords) :: after /\
    (forall l ks k, In (l, ks) before -> In k ks -> ~ Text.occurs k text_lower) /\
    (exists k, In k keywords /\ Text.occurs k text_lower).

(** *** The name feature and the rationale *)

(** [word[0].isupper() and len(word) > 2]; the words of [split] are never
    empty. *)
Definition is_capitalized (word : string) : bool :=
  match word with
  | EmptyString => false
  | String c _ => (Text.is_upper c && (2 <? String.length word)%nat)%bool
  end.

Definition _extract_company_name_from_text (text : string) : string :=
  let words := Text.split text in
  let capitalized_words := List.filter is_capitalized words in
  Text.lower (Text.join " " (take 3 capitalized_words)).

(** [set(name.split())] *)
Definition word_set (name : string) : gset string :=
  list_to_set (Text.split name).

(** The [name_similarity] entry of [calculate_rule_features]. *)
Definition name_similarity (challenge_text : string) (c : candidate) : R :=
  let challenge_name := _extract_company_name_from_text challenge_text in
  let candidate_name := field_lower (company_name c) in
  if (Text.nonempty challenge_name && Text.nonempty candidate_name)%bool then
    let challenge_words := word_set challenge_name in
    let candidate_words := word_set candidate_name in
    if (negb (bool_decide (challenge_words = ∅))
        && negb (bool_decide (candidate_words = ∅)))%bool then
      let intersection := challenge_words ∩ candidate_words in
      let union := challenge_words ∪ candidate_words in
      if negb (bool_decide (union = ∅))
      then (INR (size intersection) / INR (size union))%R
      else 0%R
    else 0%R
  else 0%R.

(** [_generate_reason]; the [name_similarity] entry of the dict is passed
    beside the record of the other two. *)
Definition _generate_reason (embedding_sim : R)
    (rule_features : rule_features_dict) (name_similarity : R) (ml_score : R)
    : string :=
  let reasons :=
    (if Rlt_dec 0.8 embedding_sim then ["Very high content similarity"]
     else if Rlt_dec 0.6 embedding_sim then ["High content similarity"]
     else if Rlt_dec 0.4 embedding_sim then ["Moderate content similarity"]
     else [])
    ++ (if Rlt_dec 0 (rf_industry_match rule_features) then ["Industry match"]
        else [])
    ++ (if Rlt_dec 0 (rf_geo_match rule_features) then ["Geographic match"]
        else [])
    ++ (if Rlt_dec 0.5 name_similarity then ["Company name similarity"]
        else [])
    ++ (if Rlt_dec 0.7 ml_score then ["Strong ML prediction"]
        else if Rlt_dec 0.5 ml_score then ["Moderate ML prediction"]
        else []) in
  if is_empty reasons then "General similarity" else Text.join "; " reasons.

End Matcher.

(** ** The scorer of [matcher-scoring-snippet.py] *)

Module Scoring.

Record model_data : Type := {
  coefficients : list R;
  intercept : R
}.

(** [compute_ml_score]: [numpy.dot] raises on vectors of different lengths
    and the [except] branch answers 0.0. *)
Definition compute_ml_score (model : model_data) (features : list R) : R :=
  let body : result R :=
    linear_combination ←
      (if Nat.eqb (length features) (length (coefficients model))
       then Ok (Matcher.dot features (coefficients model) + intercept model)%R
       else Raise (ValueError "shapes not aligned"));
    Ok (1 / (1 + exp (- linear_combination)))%R in
  match body with
  | Ok ml_score => ml_score
  | Raise _ => 0%R
  end.

Definition compute_final_score
    (embedding_similarity industry_geo_score apollo_score ml_score : R) : R :=
  let final_score :=
    (0.6 * embedding_similarity + 0.2 * industry_geo_score
     + 0.1 * apollo_score + 0.1 * ml_score)%R in
  Rmax 0 (Rmin 1 final_score).

(** The [company_features] dict, read by type: its numeric entries and its
    text entries. *)
Record company_features : Type := {
  numbers : gmap string R;
  labels : gmap string string
}.

(** [prepare_features]: one entry for each name of the model's
    [feature_order], in that order.  [industry_geo_score] and [apollo_score]
    are parameters of the source that it does not read. *)
Definition prepare_features (feature_order : list string)
    (embedding_similarity industry_geo_score apollo_score : R)
    (rule_features : gmap string R) (company : company_features) : list R :=
  map (fun feature_name : string =>
         if String.eqb feature_name "embedding_similarity" then embedding_similarity
         else if String.eqb feature_name "ml_score" then 0%R
         else if String.eqb feature_name "industry_match"
           then default 0%R (rule_features !! "industry_match")
         else if String.eqb feature_name "geo_match"
           then default 0%R (rule_features !! "geo_match")
         else if String.eqb feature_name "name_similarity"
           then default 0%R (rule_features !! "name_similarity")
         else if String.eqb feature_name "employee_count"
           then default 0%R (numbers company !! "employee_count")
         else if String.eqb feature_name "annual_revenue"
           then default 0%R (numbers company !! "annual_revenue")
         else if String.eqb feature_name "total_funding"
           then default 0%R (numbers company !! "total_funding")
         else if String.eqb feature_name "domain_health_score"
           then default 0%R (numbers company !! "domain_health_score")
         else if String.eqb feature_name "content_richness_score"
           then default 0%R (numbers company !! "content_richness_score")
         else if String.prefix "industry_" feature_name then
           let industry := Text.remove_all "industry_" feature_name in
           if bool_decide (labels company !! "industry" = Some industry)
           then 1%R else 0%R
         else if String.prefix "country_" feature_name then
           let country := Text.remove_all "country_" feature_name in
           if bool_decide (labels company !! "country" = Some country)
           then 1%R else 0%R
         else 0%R)
      feature_order.





End Scoring.

(** ** The training job: [lambda-ml-training/lambda_function.py] *)

Module Trainer.

(** *** Python values *)

(** [bool(v)] of a parsed JSON value. *)
Definition truthy (v : json) : bool :=
  match v with
  | JNull => false
  | JBool b => b
  | JNum q => negb (Qeq_bool q 0)
  | JStr s => Text.nonempty s
  | JList l => negb (Matcher.is_empty l)
  | JDict d => negb (bool_decide (d = ∅))
  end.

(** [bool(v)] of an [Optional] value; [None] is falsy. *)
Definition truthy_opt (v : option json) : bool :=
  match v with
  | None => false
  | Some j => truthy j
  end.

(** [d[key]] *)
Definition getitem (d : gmap string json) (key : string) : result json :=
  match d !! key with
  | Some v => Ok v
  | None => Raise (KeyError key)
  end.

(** [v.get(key, dflt)]: only a dict has the method. *)
Definition dict_get (v : json) (key : string) (dflt : json) : result json :=
  match v with
  | JDict d => Ok (default dflt (d !! key))
  | _ => Raise AttributeError
  end.

(** The operand of an arithmetic operator: numbers, and booleans as 0 and 1. *)
Definition as_number (v : json) : result Q :=
  match v with
  | JNum q => Ok q
  | JBool b => Ok (if b then 1 else 0)%Q
  | _ => Raise TypeError
  end.

(** [float(q)]: the double nearest to [q], ties to even.  It is what
    [json.loads] reads from the digits of [q], and the double itself when
    [q] is the value of one. *)
Definition to_double (q : Q) : float :=
  match Qnum q with
  | Z0 => 0%float
  | Zpos n =>
      SF2Prim (SFdiv prec emax (S754_finite false n 0)
                 (S754_finite false (Qden q) 0))
  | Zneg n =>
      SF2Prim (SFdiv prec emax (S754_finite true n 0)
                 (S754_finite false (Qden q) 0))
  end.

(** The JSON value of a float: the number it is.  The three floats that are
    no number are written by [json.dumps] as the bare words below. *)
Definition double_json (x : float) : json :=
  match Prim2SF x with
  | S754_zero _ => JNum 0
  | S754_finite s m e => JNum (inject_Z (cond_Zopp s (Zpos m)) * 2 ^ e)
  | S754_infinity s => JStr (if s then "-Infinity" else "Infinity")
  | S754_nan => JStr "NaN"
  end.

(** [a - b] on floats: the difference of the two doubles, rounded to a
    double. *)
Definition py_sub (a b : json) : result float :=
  x ← as_number a;
  y ← as_number b;
  Ok (to_double x - to_double y)%float.

(** [a > b] on floats; false when either is NaN. *)
Definition py_gt (a b : float) : bool := (b <? a)%float.

(** *** The training table *)

(** One row of the data frame; [None] is a missing value (NaN). *)
Record row : Type := {
  embedding_similarity : option Q;
  ml_score : option Q;
  rule_features : option (gmap string Q);
  employee_count : option Q;
  annual_revenue : option Q;
  total_funding : option Q;
  domain_health_score : option Q;
  content_richness_score : option Q;
  industry : option string;
  country : option string;
  contacted_within_14_days : option Q
}.

Definition fillna {A : Type} (value : A) (column : list (option A)) : list A :=
  map (default value) column.

(** [Series.unique()]: the distinct values, in order of first appearance. *)
Fixpoint unique (column : list string) : list string :=
  match column with
  | [] => []
  | v :: rest => v :: filter (fun w => w ≠ v) (unique rest)
  end.

(** The column a rule feature gives: [rule_features.get(name, 0.0)] where
    the cell is a dict, 0.0 where it is not. *)
Definition rule_feature_column (name : string) (df : list row)
    : list (option Q) :=
  map (fun r =>
         match rule_features r with
         | Some d => Some (default 0%Q (d !! name))
         | None => Some 0%Q
         end) df.

Definition filled_column (f : row -> option Q) (df : list row)
    : list (option Q) :=
  map Some (fillna 0%Q (map f df)).

Definition one_hot (f : row -> option string) (v : string) (df : list row)
    : list (option Q) :=
  map (fun w => Some (if bool_decide (w = v) then 1%Q else 0%Q))
      (fillna "unknown" (map f df)).

(** The ten columns [prepare_features] always emits, in its order. *)
Definition fixed_feature_names : list string :=
  [ "embedding_similarity"; "ml_score"; "industry_match"; "geo_match";
    "name_similarity"; "employee_count"; "annual_revenue"; "total_funding";
    "domain_health_score"; "content_richness_score" ].

(** [prepare_features]: the columns of [X] (before [column_stack]), the
    labels [y] and [feature_names]. *)
Definition prepare_features (df : list row)
    : list (list (option Q)) * list (option Q) * list string :=
  let industries := unique (fillna "unknown" (map industry df)) in
  let countries := unique (fillna "unknown" (map country df)) in
  let features :=
    [ map embedding_similarity df;
      map ml_score df;
      rule_feature_column "industry_match" df;
      rule_feature_column "geo_match" df;
      rule_feature_column "name_similarity" df;
      filled_column employee_count df;
      filled_column annual_revenue df;
      filled_column total_funding df;
      filled_column domain_health_score df;
      filled_column content_richness_score df ]
    ++ map (fun v => one_hot industry v df) industries
    ++ map (fun v => one_hot country v df) countries in
  let feature_names :=
    [ "embedding_similarity"; "ml_score"; "industry_match"; "geo_match";
      "name_similarity"; "employee_count"; "annual_revenue"; "total_funding";
      "domain_health_score"; "content_richness_score" ]
    ++ map (fun v => "industry_" +:+ v) industries
    ++ map (fun v => "country_" +:+ v) countries in
  (features, map contacted_within_14_days df, feature_names).

(** *** Fitting *)

(** What scikit-learn hands back for one split, fit and evaluation; each
    job reads the metrics it asks for. *)
Record fitted : Type := {
  coef_ : list Q;
  intercept_ : Q;
  n_train : nat;
  n_test : nat;
  roc_auc : Q;
  pr_auc : Q;
  report_accuracy : Q;
  report_precision : Q;
  report_recall : Q;
  report_f1 : Q
}.

(** scikit-learn as a collaborator: [train_test_split], [fit] and the
    metric functions on the columns of [X] and the labels; any of them may
    raise. *)
Definition sklearn : Type :=
  list (list (option Q)) -> list (option Q) -> result fitted.

(** The shape scikit-learn documents for [coef_]: one coefficient for each
    column of [X]. *)
Definition coef_per_column (sk : sklearn) : Prop :=
  forall X y m, sk X y = Ok m -> length (coef_ m) = length X.

Definition JNat (n : nat) : json := JNum (inject_Z (Z.of_nat n)).

(** [dict(zip(keys, values))]: a later pair replaces an earlier one. *)
Definition dict_of_zip (keys : list string) (values : list json)
    : gmap string json :=
  fold_left (fun d kv => <[fst kv := snd kv]> d) (zip keys values) ∅.

(** The wall clock read by [train_model]. *)
Record clock : Type := {
  utcnow_isoformat : string;
  time_seconds : Z
}.

Definition train_model (sk : sklearn) (ck : clock)
    (X : list (list (option Q))) (y : list (option Q))
    (feature_names : list string) : result (gmap string json) :=
  model ← sk X y;
  Ok (<["model_type" := JStr "logistic_regression"]>
     (<["coefficients" := JList (map JNum (coef_ model))]>
     (<["intercept" := JNum (intercept_ model)]>
     (<["feature_order" := JList (map JStr feature_names)]>
     (<["training_samples" := JNat (n_train model)]>
     (<["test_samples" := JNat (n_test model)]>
     (<["auc_score" := JNum (roc_auc model)]>
     (<["accuracy" := JNum (report_accuracy model)]>
     (<["precision" := JNum (report_precision model)]>
     (<["recall" := JNum (report_recall model)]>
     (<["f1_score" := JNum (report_f1 model)]>
     (<["feature_importance" :=
          JDict (dict_of_zip feature_names (map JNum (coef_ model)))]>
     (<["trained_at" := JStr (utcnow_isoformat ck)]>
     (<["model_version" := JStr ("v" +:+ pretty (time_seconds ck))]>
      ∅)))))))))))))).

(** *** Comparing with the deployed model *)

Record comparison : Type := {
  improvement : bool;
  auc_improvement : float;
  accuracy_improvement : float;
  reason : string
}.

(** The [try] block of [compare_models]. *)
Definition compare_models_try (new_model : gmap string json)
    (old_model : option json) : result comparison :=
  match old_model with
  | Some old =>
      if truthy old then
        new_auc ← getitem new_model "auc_score";
        old_auc ← dict_get old "auc_score" (JNum 0);
        auc_improvement ← py_sub new_auc old_auc;
        new_accuracy ← getitem new_model "accuracy";
        old_accuracy ← dict_get old "accuracy" (JNum 0);
        accuracy_improvement ← py_sub new_accuracy old_accuracy;
        let improvement :=
          (py_gt auc_improvement 0.01 || py_gt accuracy_improvement 0.01)%bool in
        Ok {| improvement := improvement;
              auc_improvement := auc_improvement;
              accuracy_improvement := accuracy_improvement;
              reason := if improvement then "Model improved"
                        else "Model did not improve significantly" |}
      else
        Ok {| improvement := true; auc_improvement := 0;
              accuracy_improvement := 0;
              reason := "No previous model to compare" |}
  | None =>
      Ok {| improvement := true; auc_improvement := 0;
            accuracy_improvement := 0;
            reason := "No previous model to compare" |}
  end.

(** [compare_models], with its [except] branch. *)
Definition compare_models (new_model : gmap string json)
    (old_model : option json) : comparison :=
  match compare_models_try new_model old_model with
  | Ok c => c
  | Raise _ =>
      {| improvement := true; auc_improvement := 0;
         accuracy_improvement := 0; reason := "Error comparing models" |}
  end.

Definition comparison_json (c : comparison) : json :=
  JDict (<["improvement" := JBool (improvement c)]>
        (<["auc_improvement" := double_json (auc_improvement c)]>
        (<["accuracy_improvement" := double_json (accuracy_improvement c)]>
        (<["reason" := JStr (reason c)]> ∅)))).

(** *** The model bucket and one run of the job *)

(** An object of the model bucket: a body [json.loads] parses, or one it
    rejects. *)
Inductive s3_body : Type :=
| JsonText (document : json)
| NotJson.

(** What a run does to the outside, in the order it does it. *)
Inductive event : Type :=
| TrainModel
| GetObject (key : string)
| CompareModels (improvement : bool)
| PutObject (key : string)
| PutMetricData.

Record world : Type := {
  bucket : gmap string s3_body;
  trace : list event
}.

(** A computation that reads and writes the world and may raise; what it
    wrote before raising stays written. *)
Definition M (A : Type) : Type := world -> result A * world.

#[global] Instance M_ret : MRet M := fun A a w => (Ok a, w).

#[global] Instance M_bind : MBind M := fun A B k c w =>
  match c w with
  | (Ok a, w') => k a w'
  | (Raise e, w') => (Raise e, w')
  end.

Definition lift {A : Type} (r : result A) : M A := fun w => (r, w).

Definition emit (ev : event) : M unit := fun w =>
  (Ok tt, {| bucket := bucket w; trace := trace w ++ [ev] |}).

Definition get_object (key : string) : M (option s3_body) := fun w =>
  (Ok (bucket w !! key), w).

Definition put_object (key : string) (object : s3_body) : M unit := fun w =>
  (Ok tt, {| bucket := <[key := object]> (bucket w); trace := trace w |}).

(** The inputs of one run: what the data query returned, the fitting
    library, the clock, the key of the deployed model, and whether the
    bucket accepts a write. *)
Record run : Type := {
  training_data : result (list row);
  sk : sklearn;
  ck : clock;
  MODEL_KEY : string;
  put_object_error : option exn
}.

Definition save_model (r : run) (model_data : gmap string json) : M string :=
  _ ← emit (PutObject (MODEL_KEY r));
  match put_object_error r with
  | Some e => lift (Raise e)
  | None =>
      _ ← put_object (MODEL_KEY r) (JsonText (JDict model_data));
      mret (MODEL_KEY r)
  end.

(** [json.loads(response['Body'].read())] inside a [try] whose [except]
    answers [None]: a missing object and a body that does not parse both
    give [None]. *)
Definition parsed_object (object : option s3_body) : option json :=
  match object with
  | Some (JsonText model_data) => Some model_data
  | Some NotJson => None
  | None => None
  end.

Definition load_previous_model (r : run) : M (option json) :=
  _ ← emit (GetObject (MODEL_KEY r));
  object ← get_object (MODEL_KEY r);
  mret (parsed_object object).

Record response : Type := {
  statusCode : Z;
  body : gmap string json
}.

(** [str(e)] in the error body. *)
Definition exn_str (e : exn) : string :=
  match e with
  | KeyError key => key
  | TypeError => "unsupported operand type(s)"
  | AttributeError => "object has no attribute"
  | ValueError msg => msg
  | ServiceError msg => msg
  end.

(** The [try] block of [lambda_handler]. *)
Definition lambda_handler_try (r : run) : M response :=
  df ← lift (training_data r);
  if (length df <? 100)%nat then
    mret {| statusCode := 200;
            body := <["message" := JStr ("Insufficient training data: "
                                         +:+ pretty (length df) +:+ " samples")]>
                   (<["training_samples" := JNat (length df)]>
                   (<["model_saved" := JBool false]> ∅)) |}
  else
    let '(X, y, feature_names) := prepare_features df in
    _ ← emit TrainModel;
    model_data ← lift (train_model (sk r) (ck r) X y feature_names);
    old_model ← load_previous_model r;
    let comparison := compare_models model_data old_model in
    _ ← emit (CompareModels (improvement comparison));
    saved ←
      (if (improvement comparison || negb (truthy_opt old_model))%bool then
         model_key ← save_model r model_data;
         mret (true, model_key)
       else mret (false, MODEL_KEY r));
    training_samples ← lift (getitem model_data "training_samples");
    test_samples ← lift (getitem model_data "test_samples");
    auc_score ← lift (getitem model_data "auc_score");
    accuracy ← lift (getitem model_data "accuracy");
    _ ← emit PutMetricData;
    mret {| statusCode := 200;
            body := <["message" := JStr "ML training completed successfully"]>
                   (<["training_samples" := training_samples]>
                   (<["test_samples" := test_samples]>
                   (<["auc_score" := auc_score]>
                   (<["accuracy" := accuracy]>
                   (<["model_saved" := JBool (fst saved)]>
                   (<["model_key" := JStr (snd saved)]>
                   (<["comparison" := comparison_json comparison]> ∅))))))) |}.

Definition lambda_handler (r : run) (w : world) : response * world :=
  match lambda_handler_try r w with
  | (Ok resp, w') => (resp, w')
  | (Raise e, w') =>
      ({| statusCode := 500; body := <["error" := JStr (exn_str e)]> ∅ |}, w')
  end.

End Trainer.

(** ** The weekly job: [lambda-weekly-trainer.py]

    Its [prepare_features] is the one of the training job, line for line,
    and is shared here; the world, the events and the monad are shared
    too. *)

Module WeeklyTrainer.

Import Trainer.

Definition train_model (sk : sklearn) (ck : clock)
    (X : list (list (option Q))) (y : list (option Q))
    (feature_names : list string) : result (gmap string json) :=
  model ← sk X y;
  Ok (<["model_type" := JStr "logistic_regression"]>
     (<["coefficients" := JList (map JNum (coef_ model))]>
     (<["intercept" := JNum (intercept_ model)]>
     (<["feature_order" := JList (map JStr feature_names)]>
     (<["training_samples" := JNat (n_train model)]>
     (<["test_samples" := JNat (n_test model)]>
     (<["auc_score" := JNum (roc_auc model)]>
     (<["pr_auc_score" := JNum (pr_auc model)]>
     (<["trained_at" := JStr (utcnow_isoformat ck)]>
     (<["model_version" := JStr ("v" +:+ pretty (time_seconds ck))]>
      ∅)))))))))).

(** The inputs of one weekly run. *)
Record run : Type := {
  unload_training_data : result string;
  load_training_data_from_s3 : string -> result (list row);
  sk : sklearn;
  ck : clock;
  MODEL_KEY : string;
  EVAL_KEY : string;
  put_object_error : option exn
}.

Definition save_model (r : run) (model_data : gmap string json) : M string :=
  _ ← emit (PutObject (MODEL_KEY r));
  match put_object_error r with
  | Some e => lift (Raise e)
  | None =>
      _ ← put_object (MODEL_KEY r) (JsonText (JDict model_data));
      mret (MODEL_KEY r)
  end.

Definition save_evaluation_metrics (r : run) (model_data : gmap string json)
    : M string :=
  auc_score ← lift (getitem model_data "auc_score");
  pr_auc_score ← lift (getitem model_data "pr_auc_score");
  training_samples ← lift (getitem model_data "training_samples");
  test_samples ← lift (getitem model_data "test_samples");
  model_version ← lift (getitem model_data "model_version");
  trained_at ← lift (getitem model_data "trained_at");
  let eval_data : gmap string json :=
    <["auc_score" := auc_score]>
    (<["pr_auc_score" := pr_auc_score]>
    (<["training_samples" := training_samples]>
    (<["test_samples" := test_samples]>
    (<["model_version" := model_version]>
    (<["trained_at" := trained_at]> ∅))))) in
  _ ← emit (PutObject (EVAL_KEY r));
  match put_object_error r with
  | Some e => lift (Raise e)
  | None =>
      _ ← put_object (EVAL_KEY r) (JsonText (JDict eval_data));
      mret (EVAL_KEY r)
  end.

(** The [try] block of [lambda_handler]. *)
Definition lambda_handler_try (r : run) : M response :=
  s3_path ← lift (unload_training_data r);
  df ← lift (load_training_data_from_s3 r s3_path);
  if (length df <? 100)%nat then
    mret {| statusCode := 200;
            body := <["message" := JStr ("Insufficient training data: "
                                         +:+ pretty (length df) +:+ " samples")]>
                   (<["training_samples" := JNat (length df)]>
                   (<["model_saved" := JBool false]> ∅)) |}
  else
    let '(X, y, feature_names) := prepare_features df in
    _ ← emit TrainModel;
    model_data ← lift (train_model (sk r) (ck r) X y feature_names);
    model_key ← save_model r model_data;
    eval_key ← save_evaluation_metrics r model_data;
    training_samples ← lift (getitem model_data "training_samples");
    test_samples ← lift (getitem model_data "test_samples");
    auc_score ← lift (getitem model_data "auc_score");
    pr_auc_score ← lift (getitem model_data "pr_auc_score");
    _ ← emit PutMetricData;
    mret {| statusCode := 200;
            body := <["message" := JStr "Weekly ML training completed successfully"]>
                   (<["training_samples" := training_samples]>
                   (<["test_samples" := test_samples]>
                   (<["auc_score" := auc_score]>
                   (<["pr_auc_score" := pr_auc_score]>
                   (<["model_key" := JStr model_key]>
                   (<["eval_key" := JStr eval_key]>
                   (<["s3_data_path" := JStr s3_path]> ∅))))))) |}.

Definition lambda_handler (r : run) (w : world) : response * world :=
  match lambda_handler_try r w with
  | (Ok resp, w') => (resp, w')
  | (Raise e, w') =>
      ({| statusCode := 500; body := <["error" := JStr (exn_str e)]> ∅ |}, w')
  end.

End WeeklyTrainer.

(** ** The entry point of the matching service: [lambda_handler] of
    [lambda-matcher.py] *)

Module MatcherLambda.

Import Matcher.

(** The event, read by the three keys the handler looks up. *)
Record event : Type := {
  challenge_text : option string;
  industry : option string;
  country : option string
}.

Inductive response_body : Type :=
| Completed (challenge_text : string) (matches_found : nat)
            (average_similarity : R) (matches : list match_result)
| Failed (error : string).

Record response : Type := {
  statusCode : Z;
  body : response_body
}.

(** [sum(match['final_score'] for match in matches)] *)
Definition sum_final_scores (matches : list match_result) : R :=
  fold_left (fun acc m => (acc + final_score m)%R) matches 0%R.

Definition lambda_handler (sv : services) (ev : event) : response :=
  let attempt : result response :=
    let challenge_text := default EmptyString (challenge_text ev) in
    if negb (Text.nonempty challenge_text)
    then Raise (ValueError "challenge_text is required")
    else
      matches ← find_matches sv challenge_text (industry ev) (country ev);
      let avg_similarity :=
        if is_empty matches then 0%R
        else (sum_final_scores matches / INR (length matches))%R in
      Ok {| statusCode := 200;
            body := Completed challenge_text (length matches) avg_similarity
                              matches |} in
  match attempt with
  | Ok resp => resp
  | Raise e => {| statusCode := 500; body := Failed (Trainer.exn_str e) |}
  end.

End MatcherLambda.

(** ** Concrete inputs used by the examples below *)

Module Examples.

Definition candidate_in (industry_field : string) : Matcher.candidate :=
  {| Matcher.company_key := "c-1";
     Matcher.company_name := Some "Acme";
     Matcher.industry := Some industry_field;
     Matcher.country := Some "Canada";
     Matcher.embedding_vector := [1%R] |}.

(** The model and features of the specification's scoring example. *)
Definition example_model : Matcher.model_artifact :=
  {| Matcher.coefficients := [1.0; -0.5]%R;
     Matcher.intercept := 0.1%R;
     Matcher.feature_order := ["embedding_similarity"; "industry_match"] |}.

Definition example_features : gmap string R :=
  <["industry_match" := 1.0%R]> (<["embedding_similarity" := 0.8%R]> ∅).

(** A request whose challenge embeds to [e] and whose candidate query
    returns [cs]; no model is stored, and the limits are the defaults. *)
Definition request (e : list R) (cs : list Matcher.candidate) : Matcher.services :=
  {| Matcher.get_embedding := fun _ => Ok e;
     Matcher.get_candidates_from_athena := fun _ _ _ => Ok cs;
     Matcher.s3_model := Raise (ServiceError "NoSuchKey");
     Matcher.MAX_CANDIDATES := Matcher.max_candidates_setting None;
     Matcher.TOP_RESULTS := Matcher.top_results_setting None |}.

(** A candidate whose embedding points away from the challenge's. *)
Definition opposite_candidate : Matcher.candidate :=
  {| Matcher.company_key := "c-2";
     Matcher.company_name := Some "Borealis";
     Matcher.industry := Some "Retail";
     Matcher.country := Some "France";
     Matcher.embedding_vector := [-1]%R |}.

(** Three candidates at different angles to the challenge [[1; 0]]. *)
Definition three_candidates : list Matcher.candidate :=
  [ {| Matcher.company_key := "c-3";
       Matcher.company_name := Some "Cobalt";
       Matcher.industry := Some "Software";
       Matcher.country := Some "Germany";
       Matcher.embedding_vector := [0; 1]%R |};
    {| Matcher.company_key := "c-4";
       Matcher.company_name := Some "Dune";
       Matcher.industry := Some "Healthcare";
       Matcher.country := Some "India";
       Matcher.embedding_vector := [1; 0]%R |};
    {| Matcher.company_key := "c-5";
       Matcher.company_name := Some "Ember";
       Matcher.industry := Some "Energy";
       Matcher.country := Some "Japan";
       Matcher.embedding_vector := [-1; 0]%R |} ].

(** A stand-in for scikit-learn that answers one zero coefficient for each
    column it is given and fixed metrics. *)
Definition flat_fitted (auc accuracy : Q) (X : list (list (option Q)))
    : Trainer.fitted :=
  {| Trainer.coef_ := map (fun _ => 0%Q) X;
     Trainer.intercept_ := 0%Q;
     Trainer.n_train := 80;
     Trainer.n_test := 20;
     Trainer.roc_auc := auc;
     Trainer.pr_auc := auc;
     Trainer.report_accuracy := accuracy;
     Trainer.report_precision := accuracy;
     Trainer.report_recall := accuracy;
     Trainer.report_f1 := accuracy |}.

Definition flat_fit (auc accuracy : Q) : Trainer.sklearn := fun X y =>
  Ok (flat_fitted auc accuracy X).

Definition noon : Trainer.clock :=
  {| Trainer.utcnow_isoformat := "2024-01-01T12:00:00";
     Trainer.time_seconds := 1704110400 |}.

Definition training_row (industry_field country_field : option string)
    : Trainer.row :=
  {| Trainer.embedding_similarity := Some 0.9%Q;
     Trainer.ml_score := Some 0.6%Q;
     Trainer.rule_features := Some (<["industry_match" := 1%Q]> ∅);
     Trainer.employee_count := Some 50%Q;
     Trainer.annual_revenue := None;
     Trainer.total_funding := None;
     Trainer.domain_health_score := Some 0.8%Q;
     Trainer.content_richness_score := Some 0.7%Q;
     Trainer.industry := industry_field;
     Trainer.country := country_field;
     Trainer.contacted_within_14_days := Some 1%Q |}.

(** A table of four rows over two industries and three countries, one
    country missing. *)
Definition small_table : list Trainer.row :=
  [ training_row (Some "fintech") (Some "US");
    training_row (Some "health") None;
    training_row (Some "fintech") (Some "DE");
    training_row (Some "health") (Some "US") ].

Definition hundred_rows : list Trainer.row :=
  replicate 100 (training_row (Some "fintech") (Some "US")).

Definition fifty_rows : list Trainer.row :=
  replicate 50 (training_row (Some "fintech") (Some "US")).

(** A run of the training job over [df] whose fit reports the given AUC
    and accuracy. *)
Definition training_run (df : list Trainer.row) (auc accuracy : Q)
    : Trainer.run :=
  {| Trainer.training_data := Ok df;
     Trainer.sk := flat_fit auc accuracy;
     Trainer.ck := noon;
     Trainer.MODEL_KEY := "match_lr/model.json";
     Trainer.put_object_error := None |}.

(** A run of the weekly job over [df]. *)
Definition weekly_run (df : list Trainer.row) (auc : Q) : WeeklyTrainer.run :=
  {| WeeklyTrainer.unload_training_data :=
       Ok "s3://curated/training_data/weekly/20240101/";
     WeeklyTrainer.load_training_data_from_s3 := fun _ => Ok df;
     WeeklyTrainer.sk := flat_fit auc auc;
     WeeklyTrainer.ck := noon;
     WeeklyTrainer.MODEL_KEY := "models/match_lr/model.json";
     WeeklyTrainer.EVAL_KEY := "models/match_lr/eval.json";
     WeeklyTrainer.put_object_error := None |}.

(** A deployed model document with the given metrics. *)
Definition deployed (auc accuracy : json) : gmap string json :=
  <["auc_score" := auc]> (<["accuracy" := accuracy]>
    (<["model_version" := JStr "v1700000000"]> ∅)).

(** A world whose bucket holds [old] under [key] and nothing else. *)
Definition world_with (key : string) (old : gmap string json) : Trainer.world :=
  {| Trainer.bucket := <[key := Trainer.JsonText (JDict old)]> ∅;
     Trainer.trace := [] |}.

End Examples.

(** * Properties *)

(** ** Substring search *)

Section TextFacts.

Import Text.

Lemma prefix_true_iff (p s : string) :
  String.prefix p s = true <-> exists post, s = (p ++ post)%string.
Proof.
  revert s. induction p as [|c p IH]; intros s; simpl.
  - split; [intros _; exists s; reflexivity | intros _; destruct s; reflexivity].
  - destruct s as [|d s]; simpl.
    + split; [discriminate | intros [post H]; discriminate].
    + destruct (Ascii.ascii_dec c d) as [->|Hne].
      * rewrite IH. split; intros [post H]; exists post.
        -- now rewrite H.
        -- now inversion H.
      * split; [discriminate | intros [post H]; inversion H; congruence].
Qed.

Lemma contains_unfold (needle hay : string) :
  contains needle hay =
  if String.prefix needle hay then true
  else match hay with
       | EmptyString => false
       | String _ hay' => contains needle hay'
       end.
Proof. destruct hay; reflexivity. Qed.

Lemma contains_occurs (needle hay : string) :
  contains needle hay = true <-> occurs needle hay.
Proof.
  split.
  - induction hay as [|c hay IH]; rewrite contains_unfold.
    + destruct (String.prefix needle EmptyString) eqn:Hp; [|discriminate].
      intros _. apply prefix_true_iff in Hp as [post Hp].
      exists EmptyString, post. exact Hp.
    + destruct (String.prefix needle (String c hay)) eqn:Hp.
      * intros _. apply prefix_true_iff in Hp as [post Hp].
        exists EmptyString, post. exact Hp.
      * intros H. destruct (IH H) as (pre & post & ->).
        exists (String c pre), post. reflexivity.
  - intros (pre & post & ->). induction pre as [|c pre IH].
    + change (EmptyString ++ (needle ++ post))%string with (needle ++ post)%string.
      rewrite contains_unfold.
      replace (String.prefix needle (needle ++ post)) with true; [reflexivity|].
      symmetry. apply prefix_true_iff. now exists post.
    + change (String c pre ++ (needle ++ post))%string
        with (String c (pre ++ (needle ++ post)))%string.
      rewrite contains_unfold.
      destruct (String.prefix needle _); [reflexivity | exact IH].
Qed.

Lemma contains_false_iff (needle hay : string) :
  contains needle hay = false <-> ~ occurs needle hay.
Proof.
  rewrite <- contains_occurs. destruct (contains needle hay); split; congruence.
Qed.

End TextFacts.

(** ** Rule features *)

Section RuleFeatureFacts.

Import Text Matcher.

Lemma any_keyword_occurs (keywords : list string) (text_lower : string) :
  existsb (fun keyword => contains keyword text_lower) keywords = true <->
  exists k, In k keywords /\ occurs k text_lower.
Proof.
  rewrite existsb_exists. split; intros (k & Hin & Hk); exists k; split; trivial;
    now apply contains_occurs.
Qed.

Lemma first_label_resolved table text_lower label :
  resolves_to table text_lower label -> first_label table text_lower = label.
Proof.
  intros (before & keywords & after & -> & Hbefore & Hhit).
  induction before as [|[l ks] before IH]; simpl.
  - apply any_keyword_occurs in Hhit. now rewrite Hhit.
  - destruct (existsb _ ks) eqn:Hks.
    + apply any_keyword_occurs in Hks as (k & Hin & Hk).
      exfalso. apply (Hbefore l ks k); simpl; auto.
    + apply IH. intros l' ks' k' Hin'. apply (Hbefore l' ks' k'). simpl. auto.
Qed.

Lemma first_label_unresolved table text_lower :
  (forall label, ~ resolves_to table text_lower label) ->
  first_label table text_lower = EmptyString.
Proof.
  induction table as [|[l ks] table IH]; intros Hnone; simpl; [reflexivity|].
  destruct (existsb _ ks) eqn:Hks.
  - exfalso. apply (Hnone l). exists [], ks, table. split; [reflexivity|].
    split; [intros ? ? ? []|]. now apply any_keyword_occurs.
  - apply IH. intros label (before & keywords & after & -> & Hbefore & Hhit).
    apply (Hnone label). exists ((l, ks) :: before), keywords, after.
    split; [reflexivity|]. split; [|exact Hhit].
    intros l' ks' k' [Heq|Hin] Hk'.
    + inversion Heq; subst. intros Hocc.
      assert (existsb (fun keyword => contains keyword text_lower) ks' = true) as E
        by (apply any_keyword_occurs; eauto).
      congruence.
    + now apply (Hbefore l' ks' k').
Qed.

Lemma industry_labels_nonempty table text_lower label :
  table = industry_keywords ->
  resolves_to table text_lower label -> nonempty label = true.
Proof.
  intros -> (before & keywords & after & Htable & _).
  assert (In label (map fst industry_keywords)) as Hin.
  { rewrite Htable, map_app, in_app_iff. right. simpl. auto. }
  simpl in Hin.
  repeat (destruct Hin as [<-|Hin]; [reflexivity|]). destruct Hin.
Qed.

(** C8 (as the code has it).  The challenge text resolves to the first entry
    of the ordered taxonomy one of whose keywords occurs in the lower-cased
    text; [industry_match] is 1.0 exactly when that label occurs in the
    candidate's lower-cased industry field, and 0.0 otherwise, also when no
    entry resolves.  The text "AI startup for hospitals" resolves to
    [technology] (its keyword [ai] occurs, and no healthcare keyword does),
    so the feature is 0.0 for a candidate of industry "Healthcare" and 0.0
    for one of industry "Retail". *)
Theorem industry_match_first_entry_wins :
  (forall text c label,
      resolves_to industry_keywords (lower text) label ->
      (occurs label (field_lower (industry c)) /\ industry_match text c = 1%R) \/
      (~ occurs label (field_lower (industry c)) /\ industry_match text c = 0%R)) /\
  (forall text c,
      (forall label, ~ resolves_to industry_keywords (lower text) label) ->
      industry_match text c = 0%R) /\
  resolves_to industry_keywords (lower "AI startup for hospitals") "technology" /\
  industry_match "AI startup for hospitals" (Examples.candidate_in "Healthcare") = 0%R /\
  industry_match "AI startup for hospitals" (Examples.candidate_in "Retail") = 0%R.
Proof.
  split; [|split; [|split; [|split]]].
  - intros text c label Hres. unfold industry_match, _extract_industry_from_text.
    rewrite (first_label_resolved _ _ _ Hres).
    rewrite (industry_labels_nonempty _ _ _ eq_refl Hres). simpl.
    destruct (contains label (field_lower (industry c))) eqn:Hc.
    + left. split; [now apply contains_occurs | reflexivity].
    + right. split; [now apply contains_false_iff | reflexivity].
  - intros text c Hnone. unfold industry_match, _extract_industry_from_text.
    now rewrite (first_label_unresolved _ _ Hnone).
  - exists [], ["tech"; "software"; "ai"; "artificial intelligence";
                "machine learning"; "data"; "cloud"; "saas"],
           (tl industry_keywords).
    split; [reflexivity|]. split; [intros ? ? ? []|].
    exists "ai". split; [simpl; auto|].
    exists EmptyString, " startup for hospitals". reflexivity.
  - unfold industry_match.
    replace (nonempty _ && contains _ _) with false by (vm_compute; reflexivity).
    reflexivity.
  - unfold industry_match.
    replace (nonempty _ && contains _ _) with false by (vm_compute; reflexivity).
    reflexivity.
Qed.

(** C8, the example as the specification gives it: the feature for
    "AI startup for hospitals" against a "Healthcare" candidate is 0.0, not
    the 1.0 the specification states. *)
Lemma industry_match_hospitals_healthcare_is_zero :
  industry_match "AI startup for hospitals" (Examples.candidate_in "Healthcare") = 0%R /\
  industry_match "AI startup for hospitals" (Examples.candidate_in "Healthcare") <> 1%R.
Proof.
  assert (industry_match "AI startup for hospitals"
            (Examples.candidate_in "Healthcare") = 0%R) as H.
  { unfold industry_match.
    replace (nonempty _ && contains _ _) with false by (vm_compute; reflexivity).
    reflexivity. }
  split; [exact H | rewrite H; lra].
Qed.

(** C8, at an input: the rule applied to the text of the example, which
    resolves to [technology], against a "Healthcare" candidate. *)
Lemma industry_match_first_entry_wins_witness :
  (occurs "technology"
     (field_lower (industry (Examples.candidate_in "Healthcare"))) /\
   industry_match "AI startup for hospitals"
     (Examples.candidate_in "Healthcare") = 1%R) \/
  (~ occurs "technology"
       (field_lower (industry (Examples.candidate_in "Healthcare"))) /\
   industry_match "AI startup for hospitals"
     (Examples.candidate_in "Healthcare") = 0%R).
Proof.
  apply (proj1 industry_match_first_entry_wins "AI startup for hospitals"
           (Examples.candidate_in "Healthcare") "technology").
  apply (proj1 (proj2 (proj2 industry_match_first_entry_wins))).
Defined.

End RuleFeatureFacts.

(** ** The learned score *)

Section MlScoreFacts.

Import Matcher.

Lemma fold_left_dot (cs vs : list R) (acc : R) :
  fold_left (fun acc cv => (acc + fst cv * snd cv)%R) (zip cs vs) acc
  = (acc + dot cs vs)%R.
Proof.
  revert vs acc. induction cs as [|c cs IH]; intros [|v vs] acc; simpl;
    try (unfold dot; simpl; lra).
  rewrite IH. unfold dot. simpl. lra.
Qed.

Lemma calculate_ml_score_eq (model : model_artifact) (features : gmap string R) :
  calculate_ml_score model features
  = sigmoid (dot (coefficients model)
                 (map (fun name => default 0%R (features !! name))
                      (feature_order model))
             + intercept model).
Proof.
  unfold calculate_ml_score, sigmoid. rewrite fold_left_dot.
  replace (map _ (feature_order model))
    with (map (fun name => default 0%R (features !! name)) (feature_order model)).
  - now rewrite Rplus_0_l.
  - apply map_ext. intros name. now destruct (features !! name).
Qed.

(** C2.  For every model and every feature dictionary, [calculate_ml_score]
    is the sigmoid of the dot product of the coefficients with the vector
    whose i-th entry is the dictionary's value for the i-th name of
    [feature_order], 0.0 where the name is absent, plus the intercept.  On
    the model [coefficients = [1.0, -0.5]], [intercept = 0.1],
    [feature_order = [embedding_similarity, industry_match]] and the features
    [{embedding_similarity: 0.8, industry_match: 1.0}] it is within 1e-9 of
    sigmoid(1.0*0.8 + (-0.5)*1.0 + 0.1).  The scorer of the snippet,
    [compute_ml_score], is the same sigmoid on a vector already in model
    order. *)
Theorem calculate_ml_score_sigmoid_of_dot :
  (forall (model : model_artifact) (features : gmap string R),
      let vector := map (fun name => default 0%R (features !! name))
                        (feature_order model) in
      length vector = length (feature_order model) /\
      (forall i name, feature_order model !! i = Some name ->
                      vector !! i = Some (default 0%R (features !! name))) /\
      calculate_ml_score model features
      = sigmoid (dot (coefficients model) vector + intercept model)) /\
  (Rabs (calculate_ml_score Examples.example_model Examples.example_features
         - sigmoid (1.0 * 0.8 + (-0.5) * 1.0 + 0.1)) < 1e-9)%R /\
  (forall (model : Scoring.model_data) (features : list R),
      length features = length (Scoring.coefficients model) ->
      Scoring.compute_ml_score model features
      = sigmoid (dot features (Scoring.coefficients model)
                 + Scoring.intercept model)).
Proof.
  split; [|split].
  - intros model features vector. split; [apply length_map|]. split.
    + intros i name Hi. unfold vector. rewrite list_lookup_fmap, Hi. reflexivity.
    + apply calculate_ml_score_eq.
  - rewrite calculate_ml_score_eq.
    unfold Examples.example_model, Examples.example_features; simpl.
    rewrite lookup_insert_ne by discriminate.
    rewrite !lookup_insert_eq. simpl. unfold dot; simpl.
    match goal with |- (Rabs (sigmoid ?a - sigmoid ?b) < _)%R =>
      replace a with b by lra end.
    rewrite Rminus_diag, Rabs_R0. lra.
  - intros model features Hlen. unfold Scoring.compute_ml_score.
    apply Nat.eqb_eq in Hlen. rewrite Hlen. reflexivity.
Qed.

(** C2, at an input: a model of two coefficients scoring a vector of two
    features. *)
Lemma calculate_ml_score_sigmoid_of_dot_witness :
  Scoring.compute_ml_score
    {| Scoring.coefficients := [1.0; -0.5]%R; Scoring.intercept := 0.1%R |}
    [0.8; 1.0]%R
  = sigmoid (dot [0.8; 1.0]%R [1.0; -0.5]%R + 0.1).
Proof.
  exact (proj2 (proj2 calculate_ml_score_sigmoid_of_dot)
           {| Scoring.coefficients := [1.0; -0.5]%R; Scoring.intercept := 0.1%R |}
           [0.8; 1.0]%R eq_refl).
Defined.

End MlScoreFacts.

(** ** Embedding similarity *)

Section CosineFacts.

Import Matcher.

Lemma dot_cons (x y : R) (a b : list R) :
  dot (x :: a) (y :: b) = (x * y + dot a b)%R.
Proof. reflexivity. Qed.

Lemma dot_nil_r (a : list R) : dot a [] = 0%R.
Proof. now destruct a. Qed.

Lemma dot_self_nonneg (a : list R) : (0 <= dot a a)%R.
Proof.
  induction a as [|x a IH]; [unfold dot; simpl; lra|].
  rewrite dot_cons. nra.
Qed.

Lemma cauchy_schwarz (a b : list R) :
  (dot a b * dot a b <= dot a a * dot b b)%R.
Proof.
  revert b. induction a as [|x a IH]; intros [|y b].
  - unfold dot; simpl; lra.
  - unfold dot at 1 2 3; simpl. lra.
  - rewrite !dot_nil_r. lra.
  - rewrite !dot_cons. specialize (IH b).
    pose proof (dot_self_nonneg a) as HA. pose proof (dot_self_nonneg b) as HB.
    set (s := dot a b) in *. set (A := dot a a) in *. set (B := dot b b) in *.
    assert (2 * (x * y * s) <= x * x * B + y * y * A)%R as Hmid.
    { assert (0 <= x * x * B + y * y * A)%R as Hpos by nra.
      assert ((2 * (x * y * s)) * (2 * (x * y * s))
              <= (x * x * B + y * y * A) * (x * x * B + y * y * A))%R as Hsq.
      { assert (0 <= (x * y) * (x * y))%R as Hxy by nra.
        assert ((x * y) * (x * y) * (s * s) <= (x * y) * (x * y) * (A * B))%R
          by (apply Rmult_le_compat_l; assumption).
        pose proof (Rle_0_sqr (x * x * B - y * y * A)) as Hd.
        unfold Rsqr in Hd. lra. }
      destruct (Rle_dec (2 * (x * y * s)) 0) as [Hneg|Hnn]; [lra|].
      apply Rnot_le_lt in Hnn.
      destruct (Rle_dec (2 * (x * y * s)) (x * x * B + y * y * A)) as [|Hgt];
        [assumption|].
      apply Rnot_le_lt in Hgt. exfalso.
      assert ((x * x * B + y * y * A) * (x * x * B + y * y * A)
              < (2 * (x * y * s)) * (2 * (x * y * s)))%R; [|lra].
      apply Rle_lt_trans with ((x * x * B + y * y * A) * (2 * (x * y * s)))%R.
      - apply Rmult_le_compat_l; lra.
      - apply Rmult_lt_compat_r; lra. }
    nra.
Qed.

Lemma dot_scaled (a b : list R) (k m : R) :
  k <> 0%R -> m <> 0%R ->
  dot (map (fun x => (x / k)%R) a) (map (fun y => (y / m)%R) b)
  = (dot a b / (k * m))%R.
Proof.
  intros Hk Hm. revert b. induction a as [|x a IH]; intros [|y b]; simpl;
    try (unfold dot; simpl; field; auto).
  rewrite !dot_cons, IH. field. auto.
Qed.

Lemma handle_zeros_nonzero (n : R) : handle_zeros_in_scale n <> 0%R.
Proof. unfold handle_zeros_in_scale. destruct (Req_dec_T n 0); lra. Qed.

Lemma cosine_of_rows (a b : list R) :
  dot (normalize a) (normalize b)
  = (dot a b / (handle_zeros_in_scale (norm a) * handle_zeros_in_scale (norm b)))%R.
Proof. apply dot_scaled; apply handle_zeros_nonzero. Qed.

Lemma norm_nonneg (a : list R) : (0 <= norm a)%R.
Proof. apply sqrt_pos. Qed.

Lemma norm_square (a : list R) : (norm a * norm a = dot a a)%R.
Proof. apply sqrt_sqrt, dot_self_nonneg. Qed.

Lemma dot_abs_le_norms (a b : list R) :
  (- (norm a * norm b) <= dot a b <= norm a * norm b)%R.
Proof.
  pose proof (cauchy_schwarz a b) as Hcs.
  rewrite <- (norm_square a), <- (norm_square b) in Hcs.
  pose proof (norm_nonneg a). pose proof (norm_nonneg b).
  assert (0 <= norm a * norm b)%R by nra.
  split; nra.
Qed.



Lemma zero_vector_dot (a b : list R) :
  Forall (fun x => x = 0%R) a -> dot a b = 0%R /\ dot b a = 0%R.
Proof.
  intros Hz. revert b. induction Hz as [|x a -> Hz IH]; intros [|y b];
    rewrite ?dot_nil_r; try (unfold dot; simpl; lra).
  rewrite !dot_cons. destruct (IH b) as [-> ->]. lra.
Qed.




End CosineFacts.

(** ** Final score and ranking *)

Section RankingFacts.

Import Matcher.

Lemma sigmoid_range (x : R) : (0 < sigmoid x < 1)%R.
Proof.
  unfold sigmoid. pose proof (exp_pos (- x)) as He.
  assert (0 < 1 + exp (- x))%R as Hd by lra.
  split.
  - apply Rdiv_lt_0_compat; lra.
  - apply Rmult_lt_reg_r with (1 + exp (- x))%R; [exact Hd|].
    unfold Rdiv. rewrite Rmult_assoc, Rinv_l by lra. lra.
Qed.

Lemma ml_score_range (model : model_artifact) (features : gmap string R) :
  (0 < calculate_ml_score model features < 1)%R.
Proof. rewrite calculate_ml_score_eq. apply sigmoid_range. Qed.

Lemma norm_unit (x : R) : (x * x = 1)%R -> norm [x] = 1%R.
Proof.
  intros Hx. unfold norm. rewrite dot_cons.
  replace (x * x + dot [] [])%R with 1%R by (unfold dot; simpl; lra).
  apply sqrt_1.
Qed.

Lemma opposite_similarity :
  calculate_cosine_similarity [1%R] [(-1)%R] = (-1)%R.
Proof.
  unfold calculate_cosine_similarity, cosine_similarity. simpl.
  change (dot (normalize [1%R]) (normalize [(-1)%R]) = (-1)%R).
  rewrite cosine_of_rows, !norm_unit by lra.
  unfold handle_zeros_in_scale. destruct (Req_dec_T 1 0); [lra|].
  rewrite dot_cons. unfold dot; simpl. field.
Qed.

(** C3, on the code.  [compute_final_score] of the snippet clamps to [0, 1]
    for all inputs, but [find_matches] returns the weighted sum as it is:
    for a challenge embedded to [1.0] and a candidate embedded to [-1.0] the
    one result it returns has a [final_score] below -0.4. *)
Theorem find_matches_final_score_not_clamped :
  (forall e g a m : R, (0 <= Scoring.compute_final_score e g a m <= 1)%R) /\
  (exists r,
      find_matches (Examples.request [1%R] [Examples.opposite_candidate])
                   "drones" None None = Ok [r] /\
      embedding_similarity r = (-1)%R /\
      (final_score r < -0.4)%R).
Proof.
  split.
  - intros e g a m. unfold Scoring.compute_final_score.
    set (s := (0.6 * e + 0.2 * g + 0.1 * a + 0.1 * m)%R).
    split; [apply Rmax_l|].
    apply Rmax_lub; [lra | apply Rmin_l].
  - eexists. split; [reflexivity|]. split.
    + apply opposite_similarity.
    + cbn [final_score score_candidate Examples.opposite_candidate embedding_vector].
      rewrite opposite_similarity.
      match goal with |- context [calculate_ml_score ?m ?f] =>
        pose proof (ml_score_range m f) as Hml;
        set (ml := calculate_ml_score m f) in * end.
      lra.
Qed.

End RankingFacts.

Section TopResultsFacts.

Import Matcher.

Lemma insert_by_score_Forall (P : match_result -> Prop) x l :
  P x -> Forall P l -> Forall P (insert_by_score x l).
Proof.
  intros Hx Hl. induction Hl as [|y l Hy Hl IH]; simpl.
  - constructor; [assumption | constructor].
  - destruct (Rle_dec (final_score y) (final_score x)).
    + repeat constructor; assumption.
    + constructor; assumption.
Qed.

Lemma insert_by_score_sorted x l :
  StronglySorted by_score_desc l ->
  StronglySorted by_score_desc (insert_by_score x l).
Proof.
  induction 1 as [|y l Hs IH Hy]; simpl.
  - repeat constructor.
  - destruct (Rle_dec (final_score y) (final_score x)) as [Hle|Hgt].
    + constructor; [constructor; assumption|].
      constructor; [unfold by_score_desc; lra|].
      eapply Forall_impl; [exact Hy|].
      unfold by_score_desc. intros z Hz. simpl in Hz. lra.
    + constructor; [exact IH|].
      apply insert_by_score_Forall; [unfold by_score_desc; lra | exact Hy].
Qed.

Lemma sort_by_score_sorted l : StronglySorted by_score_desc (sort_by_score l).
Proof.
  induction l as [|x l IH]; simpl; [constructor | now apply insert_by_score_sorted].
Qed.

Lemma insert_by_score_perm x l : Permutation (x :: l) (insert_by_score x l).
Proof.
  induction l as [|y l IH]; simpl; [reflexivity|].
  destruct (Rle_dec (final_score y) (final_score x)); [reflexivity|].
  rewrite perm_swap. now constructor.
Qed.

Lemma sort_by_score_perm l : Permutation l (sort_by_score l).
Proof.
  induction l as [|x l IH]; simpl; [reflexivity|].
  rewrite <- insert_by_score_perm. now constructor.
Qed.

Lemma take_sorted (n : nat) l :
  StronglySorted by_score_desc l -> StronglySorted by_score_desc (take n l).
Proof.
  intros Hs. revert n. induction Hs as [|x l Hs IH Hx]; intros [|n]; simpl;
    try constructor.
  - apply IH.
  - apply Forall_take. exact Hx.
Qed.

Lemma slice_to_bounded (k : Z) (l : list match_result) :
  (0 <= k)%Z -> (Z.of_nat (length (slice_to k l)) <= k)%Z.
Proof.
  intros Hk. unfold slice_to.
  destruct (Z.leb_spec 0 k) as [_|Hneg]; [|lia].
  rewrite length_take. lia.
Qed.

Lemma slice_to_sorted (k : Z) l :
  StronglySorted by_score_desc l -> StronglySorted by_score_desc (slice_to k l).
Proof. intros Hs. unfold slice_to. destruct (0 <=? k)%Z; now apply take_sorted. Qed.

(** C7.  With a non-negative [TOP_RESULTS] (20 when the environment does not
    set it), whenever the embedding call and the candidate query succeed
    [find_matches] returns a list; any list it returns has at most
    [TOP_RESULTS] entries, in non-increasing order of [final_score], each the
    score of one of the candidates; and on an empty candidate set it returns
    the empty list, not an error. *)
Theorem find_matches_top_results_sorted
    (sv : services) (challenge_text : string) (industry country : option string) :
  (0 <= TOP_RESULTS sv)%Z ->
  (forall e cs,
      get_embedding sv challenge_text = Ok e ->
      get_candidates_from_athena sv industry country (MAX_CANDIDATES sv) = Ok cs ->
      exists results, find_matches sv challenge_text industry country = Ok results) /\
  (forall results,
      find_matches sv challenge_text industry country = Ok results ->
      (Z.of_nat (length results) <= TOP_RESULTS sv)%Z /\
      StronglySorted (fun x y => (final_score x >= final_score y)%R) results /\
      (forall e cs,
          get_embedding sv challenge_text = Ok e ->
          get_candidates_from_athena sv industry country (MAX_CANDIDATES sv) = Ok cs ->
          forall r, In r results ->
            In r (map (score_candidate (load_ml_model (s3_model sv))
                                       challenge_text e) cs))) /\
  (forall e,
      get_embedding sv challenge_text = Ok e ->
      get_candidates_from_athena sv industry country (MAX_CANDIDATES sv) = Ok [] ->
      find_matches sv challenge_text industry country = Ok []).
Proof.
  intros Hk. unfold find_matches. split; [|split].
  - intros e cs -> ->. simpl. destruct (is_empty cs); eauto.
  - intros results.
    destruct (get_embedding sv challenge_text) as [e|]; simpl; [|discriminate].
    destruct (get_candidates_from_athena sv industry country (MAX_CANDIDATES sv))
      as [cs|]; simpl; [|discriminate].
    destruct (is_empty cs).
    + intros [= <-]. split; [simpl; lia|]. split; [constructor|].
      intros ? ? _ _ r [].
    + intros [= <-]. split; [now apply slice_to_bounded|].
      split; [apply slice_to_sorted, sort_by_score_sorted|].
      intros e' cs' [= <-] [= <-] r Hr.
      assert (In r (sort_by_score (map (score_candidate
                 (load_ml_model (s3_model sv)) challenge_text e) cs))) as Hin.
      { unfold slice_to in Hr. destruct (0 <=? TOP_RESULTS sv)%Z;
          apply list_elem_of_In in Hr; apply list_elem_of_In;
          eapply subseteq_take; exact Hr. }
      eapply Permutation_in; [symmetry; apply sort_by_score_perm | exact Hin].
  - intros e -> ->. reflexivity.
Qed.

(** C7, at an input: three candidates under the default limits. *)
Lemma find_matches_top_results_sorted_witness :
  (forall e cs,
      Ok [1; 0]%R = Ok e -> Ok Examples.three_candidates = Ok cs ->
      exists results,
        find_matches (Examples.request [1; 0]%R Examples.three_candidates)
                     "solar storage" None None = Ok results) /\
  (forall results,
      find_matches (Examples.request [1; 0]%R Examples.three_candidates)
                   "solar storage" None None = Ok results ->
      (Z.of_nat (length results) <= 20)%Z /\
      StronglySorted (fun x y => (final_score x >= final_score y)%R) results /\
      (forall e cs,
          Ok [1; 0]%R = Ok e -> Ok Examples.three_candidates = Ok cs ->
          forall r, In r results ->
            In r (map (score_candidate default_model "solar storage" e) cs))) /\
  (forall e : list R,
      Ok [1; 0]%R = Ok e ->
      Ok Examples.three_candidates = Ok [] ->
      find_matches (Examples.request [1; 0]%R Examples.three_candidates)
                   "solar storage" None None = Ok []).
Proof.
  apply (find_matches_top_results_sorted
           (Examples.request [1; 0]%R Examples.three_candidates)
           "solar storage" None None).
  simpl. lia.
Defined.

End TopResultsFacts.

(** ** The feature schema of a trained model *)

Section FeatureOrderFacts.

Import Trainer.

Lemma unique_elem_of (column : list string) (v : string) :
  v ∈ unique column <-> v ∈ column.
Proof.
  induction column as [|w column IH]; simpl; [reflexivity|].
  rewrite !elem_of_cons, list_elem_of_filter, IH.
  destruct (decide (v = w)); tauto.
Qed.

Lemma unique_NoDup (column : list string) : NoDup (unique column).
Proof.
  induction column as [|w column IH]; simpl; [constructor|].
  apply NoDup_cons. split.
  - rewrite list_elem_of_filter. intros [Hne _]. now apply Hne.
  - now apply NoDup_filter.
Qed.

Lemma prepare_features_names (df : list row) :
  snd (prepare_features df)
  = fixed_feature_names
    ++ map (fun v => "industry_" +:+ v) (unique (fillna "unknown" (map industry df)))
    ++ map (fun v => "country_" +:+ v) (unique (fillna "unknown" (map country df))).
Proof. reflexivity. Qed.

Lemma prepare_features_columns (df : list row) :
  length (fst (fst (prepare_features df))) = length (snd (prepare_features df)).
Proof.
  unfold prepare_features. cbn [fst snd].
  rewrite !length_app, !length_map. reflexivity.
Qed.

Lemma train_model_inv sk ck X y names model_data :
  train_model sk ck X y names = Ok model_data ->
  exists m, sk X y = Ok m /\
    model_data !! "coefficients" = Some (JList (map JNum (coef_ m))) /\
    model_data !! "feature_order" = Some (JList (map JStr names)) /\
    model_data !! "auc_score" = Some (JNum (roc_auc m)) /\
    model_data !! "accuracy" = Some (JNum (report_accuracy m)) /\
    model_data !! "training_samples" = Some (JNat (n_train m)) /\
    model_data !! "test_samples" = Some (JNat (n_test m)).
Proof.
  unfold train_model. destruct (sk X y) as [m|e]; simpl; [|discriminate].
  intros [= <-]. exists m. split; [reflexivity|].
  repeat split;
    repeat (rewrite lookup_insert_ne by discriminate); apply lookup_insert_eq.
Qed.

Lemma weekly_train_model_inv sk ck X y names model_data :
  WeeklyTrainer.train_model sk ck X y names = Ok model_data ->
  exists m, sk X y = Ok m /\
    model_data !! "coefficients" = Some (JList (map JNum (coef_ m))) /\
    model_data !! "feature_order" = Some (JList (map JStr names)) /\
    model_data !! "auc_score" = Some (JNum (roc_auc m)) /\
    model_data !! "pr_auc_score" = Some (JNum (pr_auc m)) /\
    model_data !! "training_samples" = Some (JNat (n_train m)) /\
    model_data !! "test_samples" = Some (JNat (n_test m)) /\
    model_data !! "model_version" = Some (JStr ("v" +:+ pretty (time_seconds ck))) /\
    model_data !! "trained_at" = Some (JStr (utcnow_isoformat ck)).
Proof.
  unfold WeeklyTrainer.train_model. destruct (sk X y) as [m|e]; simpl; [|discriminate].
  intros [= <-]. exists m. split; [reflexivity|].
  repeat split;
    repeat (rewrite lookup_insert_ne by discriminate); apply lookup_insert_eq.
Qed.



End FeatureOrderFacts.

(** ** Runs of the training jobs *)

Section TrainingRunFacts.

Import Trainer.

(** The double [0.01]: 5764607523034235 / 2^59, a little above 1/100. *)
Lemma threshold_bits :
  Prim2SF 0.01%float = S754_finite false 5764607523034235 (-59).
Proof. reflexivity. Qed.

(** [to_double] reads digits as Python does, and leaves the value of a
    double as it is. *)
Lemma to_double_examples :
  to_double 0.01 = 0.01%float /\ to_double 0.96 = 0.96%float /\
  to_double 0.1 = 0.1%float /\
  to_double 0.30000000000000004 = 0.30000000000000004%float /\
  to_double (5764607523034235 # 576460752303423488) = 0.01%float /\
  to_double (-0.5) = (-0.5)%float /\
  to_double 9007199254740993 = 9007199254740992%float /\
  to_double 1e309 = infinity /\ to_double 1 = 1%float.
Proof. repeat split; vm_compute; reflexivity. Qed.

(** [x - x] is zero or NaN, and neither is above [0.01]. *)
Lemma sub_self_not_above (x : float) : py_gt (x - x)%float 0.01%float = false.
Proof.
  unfold py_gt. rewrite ltb_spec, sub_spec, threshold_bits.
  destruct (Prim2SF x) as [s|s| |s m e].
  - destruct s; reflexivity.
  - destruct s; reflexivity.
  - reflexivity.
  - unfold SF64sub, SFsub. cbv zeta. rewrite Z.sub_diag. reflexivity.
Qed.

(** [x - 0.0] is [x] for an [x] above [0.01]. *)
Lemma sub_zero_above (x : float) :
  py_gt x 0.01%float = true -> (x - 0)%float = x.
Proof.
  unfold py_gt. rewrite ltb_spec, threshold_bits. intros H.
  apply Prim2SF_inj. rewrite sub_spec.
  change (Prim2SF 0%float) with (S754_zero false).
  destruct (Prim2SF x) as [s|s| |s m e]; try discriminate; reflexivity.
Qed.

Lemma above_of_two_hundredths (d : float) :
  (0.02 <=? d)%float = true -> py_gt d 0.01%float = true.
Proof.
  unfold py_gt. rewrite leb_spec, ltb_spec, threshold_bits.
  change (Prim2SF 0.02%float) with (S754_finite false 5764607523034235 (-58)).
  destruct (Prim2SF d) as [s|s| |s m e]; try discriminate.
  all: destruct s; try discriminate; try reflexivity.
  unfold SFleb, SFltb, SFcompare.
  destruct (Z.compare_spec (-58) e) as [<-|Hlt|Hgt]; try discriminate.
  - reflexivity.
  - intros _. destruct (Z.compare_spec (-59) e); [lia | reflexivity | lia].
Qed.

Lemma not_above_of_nonpositive (d : float) :
  (d <=? 0)%float = true -> py_gt d 0.01%float = false.
Proof.
  unfold py_gt. rewrite leb_spec, ltb_spec, threshold_bits.
  change (Prim2SF 0%float) with (S754_zero false).
  destruct (Prim2SF d) as [s|s| |s m e]; try discriminate; try reflexivity.
  all: destruct s; try discriminate; reflexivity.
Qed.

(** The run of [lambda_handler] once a model was fitted and the bucket
    accepts writes. *)
Lemma handler_fit_run (r : run) (w : world) (df : list row)
    (model_data : gmap string json) :
  training_data r = Ok df ->
  (100 <= length df)%nat ->
  train_model (sk r) (ck r) (fst (fst (prepare_features df)))
              (snd (fst (prepare_features df))) (snd (prepare_features df))
    = Ok model_data ->
  put_object_error r = None ->
  let old_model := parsed_object (bucket w !! MODEL_KEY r) in
  let comparison := compare_models model_data old_model in
  let save := (improvement comparison || negb (truthy_opt old_model))%bool in
  exists resp,
    lambda_handler r w
    = (resp,
       {| bucket := if save
                    then <[MODEL_KEY r := JsonText (JDict model_data)]> (bucket w)
                    else bucket w;
          trace := trace w
                   ++ [TrainModel; GetObject (MODEL_KEY r);
                       CompareModels (improvement comparison)]
                   ++ (if save then [PutObject (MODEL_KEY r)] else [])
                   ++ [PutMetricData] |}) /\
    statusCode resp = 200%Z /\
    body resp !! "model_saved" = Some (JBool save).
Proof.
  intros Hdata Hlen Htrain Hput old_model comparison save.
  pose proof (train_model_inv _ _ _ _ _ _ Htrain)
    as (m & _ & _ & _ & Hauc & Hacc & Hn & Ht).
  unfold lambda_handler, lambda_handler_try.
  unfold mbind, M_bind, lift. rewrite Hdata.
  destruct (Nat.ltb_spec (length df) 100) as [Hlt|_]; [lia|].
  destruct (prepare_features df) as [[X y] names]. cbn [fst snd] in Htrain.
  cbn [emit lift]. rewrite Htrain.
  unfold load_previous_model, save_model, get_object, put_object, emit.
  unfold mbind, M_bind, mret, M_ret. cbn [bucket trace].
  fold old_model. fold comparison. fold save.
  unfold getitem. rewrite Hput, Hn, Ht, Hauc, Hacc.
  destruct save; cbn [bucket trace fst snd lift].
  - eexists. split.
    { f_equal. f_equal. rewrite <- !app_assoc. reflexivity. }
    split; [reflexivity|].
    cbn [body]. repeat (rewrite lookup_insert_ne by discriminate).
    apply lookup_insert_eq.
  - eexists. split.
    { f_equal. f_equal. rewrite <- !app_assoc. reflexivity. }
    split; [reflexivity|].
    cbn [body]. repeat (rewrite lookup_insert_ne by discriminate).
    apply lookup_insert_eq.
Qed.

Lemma compare_models_numeric (new_model old : gmap string json)
    (new_auc new_accuracy old_auc old_accuracy : Q) :
  new_model !! "auc_score" = Some (JNum new_auc) ->
  new_model !! "accuracy" = Some (JNum new_accuracy) ->
  old <> ∅ ->
  default (JNum 0) (old !! "auc_score") = JNum old_auc ->
  default (JNum 0) (old !! "accuracy") = JNum old_accuracy ->
  improvement (compare_models new_model (Some (JDict old)))
  = (py_gt (to_double new_auc - to_double old_auc) 0.01
     || py_gt (to_double new_accuracy - to_double old_accuracy) 0.01)%bool.
Proof.
  intros Hna Hnc Hne Hoa Hoc.
  unfold compare_models, compare_models_try, truthy.
  rewrite bool_decide_eq_false_2 by exact Hne. cbn [negb].
  unfold getitem, dict_get. rewrite Hna, Hnc, Hoa, Hoc. reflexivity.
Qed.

Lemma compare_models_no_previous (new_model : gmap string json)
    (old_model : option json) :
  truthy_opt old_model = false ->
  improvement (compare_models new_model old_model) = true.
Proof.
  intros Hf. unfold compare_models, compare_models_try.
  destruct old_model as [old|]; [|reflexivity].
  simpl in Hf. now rewrite Hf.
Qed.

(** C4.  In a run that fits a model (the bucket accepting writes): with no
    previous model the new one is written; against a previous model with
    numeric metrics (an absent metric reading as 0.0) the new one is written
    if and only if the AUC difference or the accuracy difference, new minus
    deployed as the double subtraction gives it, is greater than the double
    0.01, and otherwise the bucket is left as it was.  So a computed AUC
    difference of 0.02 or more promotes, and a computed AUC difference of
    zero or less with the accuracy unchanged retains the deployed model. *)
Theorem promotion_decision (r : run) (w : world) (df : list row) (m : fitted) :
  training_data r = Ok df ->
  (100 <= length df)%nat ->
  sk r (fst (fst (prepare_features df))) (snd (fst (prepare_features df))) = Ok m ->
  put_object_error r = None ->
  exists model_data resp w',
    train_model (sk r) (ck r) (fst (fst (prepare_features df)))
                (snd (fst (prepare_features df))) (snd (prepare_features df))
      = Ok model_data /\
    lambda_handler r w = (resp, w') /\
    statusCode resp = 200%Z /\
    (parsed_object (bucket w !! MODEL_KEY r) = None ->
       body resp !! "model_saved" = Some (JBool true) /\
       bucket w' = <[MODEL_KEY r := JsonText (JDict model_data)]> (bucket w)) /\
    (forall old old_auc old_accuracy,
       bucket w !! MODEL_KEY r = Some (JsonText (JDict old)) ->
       old <> ∅ ->
       default (JNum 0) (old !! "auc_score") = JNum old_auc ->
       default (JNum 0) (old !! "accuracy") = JNum old_accuracy ->
       let auc_step := (to_double (roc_auc m) - to_double old_auc)%float in
       let accuracy_step :=
         (to_double (report_accuracy m) - to_double old_accuracy)%float in
       let improved :=
         (0.01 <? auc_step)%float = true \/ (0.01 <? accuracy_step)%float = true in
       (improved <-> body resp !! "model_saved" = Some (JBool true)) /\
       (improved <-> In (PutObject (MODEL_KEY r)) (drop (length (trace w)) (trace w'))) /\
       (improved ->
          bucket w' = <[MODEL_KEY r := JsonText (JDict model_data)]> (bucket w)) /\
       (~ improved -> bucket w' = bucket w) /\
       ((0.02 <=? auc_step)%float = true ->
          bucket w' = <[MODEL_KEY r := JsonText (JDict model_data)]> (bucket w)) /\
       ((auc_step <=? 0)%float = true ->
        to_double (report_accuracy m) = to_double old_accuracy ->
          bucket w' = bucket w)).
Proof.
  intros Hdata Hlen Hfit Hput.
  assert (exists model_data,
    train_model (sk r) (ck r) (fst (fst (prepare_features df)))
                (snd (fst (prepare_features df))) (snd (prepare_features df))
      = Ok model_data) as [model_data Htrain].
  { unfold train_model. rewrite Hfit. simpl. eauto. }
  destruct (handler_fit_run r w df model_data Hdata Hlen Htrain Hput)
    as (resp & Hrun & Hstatus & Hsaved).
  pose proof (train_model_inv _ _ _ _ _ _ Htrain)
    as (m' & Hfit' & _ & _ & Hauc & Hacc & _).
  assert (m' = m) as -> by congruence.
  eexists model_data, resp, _. split; [exact Htrain|].
  split; [exact Hrun|]. split; [exact Hstatus|]. split.
  - intros Hnone. cbn [bucket trace].
    rewrite Hnone in Hsaved |- *. simpl in Hsaved |- *.
    rewrite Hsaved. split; reflexivity.
  - intros old old_auc old_accuracy Hold Hne Hoa Hoc auc_step accuracy_step improved.
    cbn [bucket trace].
    rewrite Hold in Hsaved |- *. cbn [parsed_object] in Hsaved |- *.
    rewrite (compare_models_numeric _ _ _ _ _ _ Hauc Hacc Hne Hoa Hoc)
      in Hsaved |- *.
    assert (truthy_opt (Some (JDict old)) = true) as Htruthy.
    { simpl. now rewrite bool_decide_eq_false_2. }
    rewrite Htruthy in Hsaved |- *. cbn [negb] in Hsaved |- *.
    rewrite orb_false_r in Hsaved |- *. rewrite Hsaved.
    rewrite drop_app_length.
    fold auc_step accuracy_step.
    assert (improved <->
            (py_gt auc_step 0.01 || py_gt accuracy_step 0.01)%bool = true)
      as Himp.
    { unfold improved, py_gt. rewrite orb_true_iff. reflexivity. }
    destruct (py_gt auc_step 0.01 || py_gt accuracy_step 0.01)%bool eqn:Hb.
    + assert improved as Hyes by (now apply Himp).
      split; [tauto|]. split; [simpl; tauto|]. split; [reflexivity|].
      split; [tauto|]. split; [reflexivity|].
      intros Hauc_le Hacc_eq. exfalso.
      apply orb_true_iff in Hb. destruct Hb as [Hb|Hb].
      * rewrite (not_above_of_nonpositive _ Hauc_le) in Hb. discriminate.
      * unfold accuracy_step in Hb. rewrite Hacc_eq, sub_self_not_above in Hb.
        discriminate.
    + assert (~ improved) as Hno by (rewrite Himp; congruence).
      split; [split; [tauto | congruence]|].
      split.
      { split; [tauto|]. simpl. intros [H|[H|[H|[H|[]]]]]; discriminate. }
      split; [tauto|]. split; [reflexivity|]. split; [|reflexivity].
      intros Hauc_ge. exfalso.
      apply orb_false_iff in Hb. destruct Hb as [Hb _].
      rewrite (above_of_two_hundredths _ Hauc_ge) in Hb. discriminate.
Qed.

(** C4, at four inputs, the accuracy being 0.8 throughout.  Over a deployed
    model of AUC 0.88, a fit of AUC 0.90 is written and a fit of AUC 0.87 is
    not.  Where the digits are 0.01 apart the rounding of the doubles
    decides: a fit of AUC 0.96 over a deployed 0.95 is written, the
    difference being 0.010000000000000009, and a fit of AUC 0.11 over a
    deployed 0.10 is not, the difference being 0.009999999999999995. *)
Lemma promotion_decision_witness :
  (exists resp w',
      lambda_handler (Examples.training_run Examples.hundred_rows 0.90 0.8)
        (Examples.world_with "match_lr/model.json"
           (Examples.deployed (JNum 0.88) (JNum 0.8))) = (resp, w') /\
      body resp !! "model_saved" = Some (JBool true)) /\
  (exists resp w',
      lambda_handler (Examples.training_run Examples.hundred_rows 0.87 0.8)
        (Examples.world_with "match_lr/model.json"
           (Examples.deployed (JNum 0.88) (JNum 0.8))) = (resp, w') /\
      bucket w' = bucket (Examples.world_with "match_lr/model.json"
                            (Examples.deployed (JNum 0.88) (JNum 0.8)))) /\
  (exists resp w',
      lambda_handler (Examples.training_run Examples.hundred_rows 0.96 0.8)
        (Examples.world_with "match_lr/model.json"
           (Examples.deployed (JNum 0.95) (JNum 0.8))) = (resp, w') /\
      body resp !! "model_saved" = Some (JBool true)) /\
  (exists resp w',
      lambda_handler (Examples.training_run Examples.hundred_rows 0.11 0.8)
        (Examples.world_with "match_lr/model.json"
           (Examples.deployed (JNum 0.10) (JNum 0.8))) = (resp, w') /\
      bucket w' = bucket (Examples.world_with "match_lr/model.json"
                            (Examples.deployed (JNum 0.10) (JNum 0.8)))).
Proof.
  split; [|split; [|split]].
  - destruct (promotion_decision
                (Examples.training_run Examples.hundred_rows 0.90 0.8)
                (Examples.world_with "match_lr/model.json"
                   (Examples.deployed (JNum 0.88) (JNum 0.8)))
                Examples.hundred_rows
                (Examples.flat_fitted 0.90 0.8
                   (fst (fst (prepare_features Examples.hundred_rows)))))
      as (model_data & resp & w' & _ & Hrun & _ & _ & Hold);
      [reflexivity | unfold Examples.hundred_rows; rewrite length_replicate; lia
      | reflexivity | reflexivity |].
    exists resp, w'. split; [exact Hrun|].
    destruct (Hold (Examples.deployed (JNum 0.88) (JNum 0.8)) 0.88%Q 0.8%Q)
      as ([Hsaved _] & _);
      [apply lookup_insert_eq | apply insert_non_empty
      | reflexivity | reflexivity |].
    apply Hsaved. left. cbn [roc_auc Examples.flat_fitted]. now vm_compute.
  - destruct (promotion_decision
                (Examples.training_run Examples.hundred_rows 0.87 0.8)
                (Examples.world_with "match_lr/model.json"
                   (Examples.deployed (JNum 0.88) (JNum 0.8)))
                Examples.hundred_rows
                (Examples.flat_fitted 0.87 0.8
                   (fst (fst (prepare_features Examples.hundred_rows)))))
      as (model_data & resp & w' & _ & Hrun & _ & _ & Hold);
      [reflexivity | unfold Examples.hundred_rows; rewrite length_replicate; lia
      | reflexivity | reflexivity |].
    exists resp, w'. split; [exact Hrun|].
    destruct (Hold (Examples.deployed (JNum 0.88) (JNum 0.8)) 0.88%Q 0.8%Q)
      as (_ & _ & _ & _ & _ & Hkeep);
      [apply lookup_insert_eq | apply insert_non_empty
      | reflexivity | reflexivity |].
    apply Hkeep; cbn [roc_auc report_accuracy Examples.flat_fitted];
      now vm_compute.
  - destruct (promotion_decision
                (Examples.training_run Examples.hundred_rows 0.96 0.8)
                (Examples.world_with "match_lr/model.json"
                   (Examples.deployed (JNum 0.95) (JNum 0.8)))
                Examples.hundred_rows
                (Examples.flat_fitted 0.96 0.8
                   (fst (fst (prepare_features Examples.hundred_rows)))))
      as (model_data & resp & w' & _ & Hrun & _ & _ & Hold);
      [reflexivity | unfold Examples.hundred_rows; rewrite length_replicate; lia
      | reflexivity | reflexivity |].
    exists resp, w'. split; [exact Hrun|].
    destruct (Hold (Examples.deployed (JNum 0.95) (JNum 0.8)) 0.95%Q 0.8%Q)
      as ([Hsaved _] & _);
      [apply lookup_insert_eq | apply insert_non_empty
      | reflexivity | reflexivity |].
    apply Hsaved. left. cbn [roc_auc Examples.flat_fitted]. now vm_compute.
  - destruct (promotion_decision
                (Examples.training_run Examples.hundred_rows 0.11 0.8)
                (Examples.world_with "match_lr/model.json"
                   (Examples.deployed (JNum 0.10) (JNum 0.8)))
                Examples.hundred_rows
                (Examples.flat_fitted 0.11 0.8
                   (fst (fst (prepare_features Examples.hundred_rows)))))
      as (model_data & resp & w' & _ & Hrun & _ & _ & Hold);
      [reflexivity | unfold Examples.hundred_rows; rewrite length_replicate; lia
      | reflexivity | reflexivity |].
    exists resp, w'. split; [exact Hrun|].
    destruct (Hold (Examples.deployed (JNum 0.10) (JNum 0.8)) 0.10%Q 0.8%Q)
      as (_ & _ & _ & Hkeep & _);
      [apply lookup_insert_eq | apply insert_non_empty
      | reflexivity | reflexivity |].
    cbn [roc_auc report_accuracy Examples.flat_fitted] in Hkeep.
    apply Hkeep. intros [H|H]; vm_compute in H; discriminate H.
Defined.

(** The run of either job on a table of fewer than 100 rows. *)
Lemma small_table_run (r : run) (w : world) (df : list row) :
  training_data r = Ok df -> (length df < 100)%nat ->
  exists resp, lambda_handler r w = (resp, w) /\
    statusCode resp = 200%Z /\
    body resp !! "model_saved" = Some (JBool false).
Proof.
  intros Hdata Hlen. unfold lambda_handler, lambda_handler_try.
  unfold mbind, M_bind, lift. rewrite Hdata.
  destruct (Nat.ltb_spec (length df) 100) as [_|Hge]; [|lia].
  eexists. split; [reflexivity|]. split; [reflexivity|].
  cbn [body]. repeat (rewrite lookup_insert_ne by discriminate).
  apply lookup_insert_eq.
Qed.

Lemma weekly_small_table_run (r : WeeklyTrainer.run) (w : world)
    (s3_path : string) (df : list row) :
  WeeklyTrainer.unload_training_data r = Ok s3_path ->
  WeeklyTrainer.load_training_data_from_s3 r s3_path = Ok df ->
  (length df < 100)%nat ->
  exists resp, WeeklyTrainer.lambda_handler r w = (resp, w) /\
    statusCode resp = 200%Z /\
    body resp !! "model_saved" = Some (JBool false).
Proof.
  intros Hunload Hload Hlen.
  unfold WeeklyTrainer.lambda_handler, WeeklyTrainer.lambda_handler_try.
  unfold mbind, M_bind, lift. rewrite Hunload, Hload.
  destruct (Nat.ltb_spec (length df) 100) as [_|Hge]; [|lia].
  eexists. split; [reflexivity|]. split; [reflexivity|].
  cbn [body]. repeat (rewrite lookup_insert_ne by discriminate).
  apply lookup_insert_eq.
Qed.

(** C5.  In either job, a run whose table has fewer than 100 rows answers
    status 200 with [model_saved] false and leaves the world as it found
    it: the bucket is not written and the trace gains no event, so no model
    is fitted. *)
Theorem insufficient_data_is_noop :
  (forall (r : run) (w : world) (df : list row),
      training_data r = Ok df -> (length df < 100)%nat ->
      exists resp w',
        lambda_handler r w = (resp, w') /\
        statusCode resp = 200%Z /\
        body resp !! "model_saved" = Some (JBool false) /\
        bucket w' = bucket w /\ trace w' = trace w /\
        ~ In TrainModel (drop (length (trace w)) (trace w'))) /\
  (forall (r : WeeklyTrainer.run) (w : world) (s3_path : string) (df : list row),
      WeeklyTrainer.unload_training_data r = Ok s3_path ->
      WeeklyTrainer.load_training_data_from_s3 r s3_path = Ok df ->
      (length df < 100)%nat ->
      exists resp w',
        WeeklyTrainer.lambda_handler r w = (resp, w') /\
        statusCode resp = 200%Z /\
        body resp !! "model_saved" = Some (JBool false) /\
        bucket w' = bucket w /\ trace w' = trace w /\
        ~ In TrainModel (drop (length (trace w)) (trace w'))).
Proof.
  split.
  - intros r w df Hdata Hlen.
    destruct (small_table_run r w df Hdata Hlen) as (resp & Hrun & Hs & Hb).
    exists resp, w. repeat split; auto.
    rewrite drop_all. intros [].
  - intros r w s3_path df Hunload Hload Hlen.
    destruct (weekly_small_table_run r w s3_path df Hunload Hload Hlen)
      as (resp & Hrun & Hs & Hb).
    exists resp, w. repeat split; auto.
    rewrite drop_all. intros [].
Qed.

(** C5, at an input: fifty rows, over a bucket that holds a deployed
    model. *)
Lemma insufficient_data_is_noop_witness :
  exists resp w',
    lambda_handler (Examples.training_run Examples.fifty_rows 0.9 0.8)
      (Examples.world_with "match_lr/model.json"
         (Examples.deployed (JNum 0.88) (JNum 0.8))) = (resp, w') /\
    statusCode resp = 200%Z /\
    body resp !! "model_saved" = Some (JBool false) /\
    bucket w' = bucket (Examples.world_with "match_lr/model.json"
                          (Examples.deployed (JNum 0.88) (JNum 0.8))) /\
    trace w' = trace (Examples.world_with "match_lr/model.json"
                        (Examples.deployed (JNum 0.88) (JNum 0.8))) /\
    ~ In TrainModel
        (drop (length (trace (Examples.world_with "match_lr/model.json"
                                (Examples.deployed (JNum 0.88) (JNum 0.8)))))
              (trace w')).
Proof.
  apply (proj1 insufficient_data_is_noop
           (Examples.training_run Examples.fifty_rows 0.9 0.8)
           (Examples.world_with "match_lr/model.json"
              (Examples.deployed (JNum 0.88) (JNum 0.8)))
           Examples.fifty_rows).
  - reflexivity.
  - unfold Examples.fifty_rows. rewrite length_replicate. lia.
Defined.

Lemma compare_models_failure (new_model : gmap string json)
    (old_model : option json) (e : exn) :
  compare_models_try new_model old_model = Raise e ->
  compare_models new_model old_model
  = {| improvement := true; auc_improvement := 0; accuracy_improvement := 0;
       reason := "Error comparing models" |}.
Proof. intros H. unfold compare_models. now rewrite H. Qed.

Lemma compare_models_missing_metric (new_model : gmap string json)
    (old_model : option json) :
  truthy_opt old_model = true ->
  new_model !! "auc_score" = None \/ new_model !! "accuracy" = None ->
  exists e, compare_models_try new_model old_model = Raise e.
Proof.
  intros Htruthy Hmissing. unfold compare_models_try.
  destruct old_model as [old|]; [|discriminate]. simpl in Htruthy.
  rewrite Htruthy. unfold getitem.
  destruct (new_model !! "auc_score") as [a|] eqn:Ha; simpl; [|eauto].
  destruct Hmissing as [?|Hacc]; [discriminate|].
  destruct (dict_get old "auc_score" (JNum 0)) as [oa|]; simpl; [|eauto].
  destruct (py_sub a oa); simpl; [|eauto].
  rewrite Hacc. simpl. eauto.
Qed.

Lemma compare_models_text_metric (new_model old : gmap string json)
    (new_auc : Q) (text : string) :
  new_model !! "auc_score" = Some (JNum new_auc) ->
  old <> ∅ ->
  old !! "auc_score" = Some (JStr text) ->
  compare_models_try new_model (Some (JDict old)) = Raise TypeError.
Proof.
  intros Hna Hne Hoa. unfold compare_models_try, truthy.
  rewrite bool_decide_eq_false_2 by exact Hne. cbn [negb].
  unfold getitem, dict_get. rewrite Hna, Hoa. reflexivity.
Qed.

(** C10.  When the [try] block of [compare_models] raises, [compare_models]
    answers [improvement = True] with the reason "Error comparing models";
    it raises whenever a previous model exists and the new model's dict has
    no [auc_score] or no [accuracy]; and a run whose comparison raised writes
    the new model over the deployed one and reports [model_saved] true, as
    it does for a genuine improvement. *)
Theorem comparison_failure_promotes :
  (forall (new_model : gmap string json) (old_model : option json) (e : exn),
      compare_models_try new_model old_model = Raise e ->
      improvement (compare_models new_model old_model) = true /\
      reason (compare_models new_model old_model) = "Error comparing models") /\
  (forall (new_model : gmap string json) (old_model : option json),
      truthy_opt old_model = true ->
      new_model !! "auc_score" = None \/ new_model !! "accuracy" = None ->
      exists e, compare_models_try new_model old_model = Raise e) /\
  (forall (r : run) (w : world) (df : list row)
          (model_data : gmap string json) (e : exn),
      training_data r = Ok df ->
      (100 <= length df)%nat ->
      train_model (sk r) (ck r) (fst (fst (prepare_features df)))
                  (snd (fst (prepare_features df))) (snd (prepare_features df))
        = Ok model_data ->
      put_object_error r = None ->
      compare_models_try model_data (parsed_object (bucket w !! MODEL_KEY r))
        = Raise e ->
      exists resp w',
        lambda_handler r w = (resp, w') /\
        statusCode resp = 200%Z /\
        body resp !! "model_saved" = Some (JBool true) /\
        bucket w' = <[MODEL_KEY r := JsonText (JDict model_data)]> (bucket w) /\
        In (PutObject (MODEL_KEY r)) (trace w')).
Proof.
  split; [|split].
  - intros new_model old_model e H.
    rewrite (compare_models_failure _ _ _ H). split; reflexivity.
  - apply compare_models_missing_metric.
  - intros r w df model_data e Hdata Hlen Htrain Hput Hraise.
    destruct (handler_fit_run r w df model_data Hdata Hlen Htrain Hput)
      as (resp & Hrun & Hstatus & Hsaved).
    rewrite (compare_models_failure _ _ _ Hraise) in Hrun, Hsaved.
    cbn [improvement orb] in Hrun, Hsaved.
    eexists resp, _. split; [exact Hrun|]. split; [exact Hstatus|].
    split; [exact Hsaved|]. split; [reflexivity|].
    cbn [trace]. rewrite !in_app_iff. right. right. left. simpl. auto.
Qed.

(** C10, at an input: the deployed document carries its AUC as the text
    "n/a", the subtraction raises, and the new model is written. *)
Lemma comparison_failure_promotes_witness :
  exists resp w',
    lambda_handler (Examples.training_run Examples.hundred_rows 0.5 0.5)
      (Examples.world_with "match_lr/model.json"
         (Examples.deployed (JStr "n/a") (JNum 0.99))) = (resp, w') /\
    statusCode resp = 200%Z /\
    body resp !! "model_saved" = Some (JBool true) /\
    bucket w' !! "match_lr/model.json"
      <> Some (JsonText (JDict (Examples.deployed (JStr "n/a") (JNum 0.99)))) /\
    In (PutObject "match_lr/model.json") (trace w').
Proof.
  destruct (train_model (Examples.flat_fit 0.5 0.5) Examples.noon
              (fst (fst (prepare_features Examples.hundred_rows)))
              (snd (fst (prepare_features Examples.hundred_rows)))
              (snd (prepare_features Examples.hundred_rows)))
    as [model_data|] eqn:Htrain; [|discriminate Htrain].
  destruct (proj2 (proj2 comparison_failure_promotes)
              (Examples.training_run Examples.hundred_rows 0.5 0.5)
              (Examples.world_with "match_lr/model.json"
                 (Examples.deployed (JStr "n/a") (JNum 0.99)))
              Examples.hundred_rows model_data TypeError)
    as (resp & w' & Hrun & Hstatus & Hsaved & Hbucket & Hput).
  - reflexivity.
  - unfold Examples.hundred_rows. rewrite length_replicate. lia.
  - exact Htrain.
  - reflexivity.
  - pose proof (train_model_inv _ _ _ _ _ _ Htrain)
      as (m & _ & _ & _ & Hauc & _).
    apply (compare_models_text_metric _ _ _ "n/a" Hauc);
      [apply insert_non_empty | apply lookup_insert_eq].
  - exists resp, w'. split; [exact Hrun|]. split; [exact Hstatus|].
    split; [exact Hsaved|]. split; [|exact Hput].
    rewrite Hbucket. cbn [Examples.training_run MODEL_KEY].
    rewrite lookup_insert_eq.
    pose proof (train_model_inv _ _ _ _ _ _ Htrain)
      as (m & _ & _ & _ & Hauc & _).
    intros [= Heq]. rewrite Heq in Hauc.
    unfold Examples.deployed in Hauc. rewrite lookup_insert_eq in Hauc.
    discriminate Hauc.
Defined.

(** Every run of the training job, whatever its inputs: the deployed key
    is written, or a write of it attempted, only after the comparison. *)
Lemma handler_writes_after_decision (r : run) (w : world) :
  let w' := snd (lambda_handler r w) in
  let old_model := parsed_object (bucket w !! MODEL_KEY r) in
  (bucket w' = bucket w /\
   ~ In (PutObject (MODEL_KEY r)) (drop (length (trace w)) (trace w'))) \/
  (exists model_data later,
      (improvement (compare_models model_data old_model) = true \/
       truthy_opt old_model = false) /\
      trace w' = trace w
                 ++ [TrainModel; GetObject (MODEL_KEY r);
                     CompareModels (improvement (compare_models model_data old_model));
                     PutObject (MODEL_KEY r)] ++ later /\
      (bucket w' = bucket w \/
       bucket w' = <[MODEL_KEY r := JsonText (JDict model_data)]> (bucket w))).
Proof.
  unfold lambda_handler, lambda_handler_try.
  unfold mbind, M_bind, lift.
  destruct (training_data r) as [df|e].
  2:{ left. split; [reflexivity|]. simpl. rewrite drop_all. intros []. }
  destruct (length df <? 100)%nat.
  { left. split; [reflexivity|]. simpl. rewrite drop_all. intros []. }
  destruct (prepare_features df) as [[X y] names]. cbn [emit].
  destruct (train_model (sk r) (ck r) X y names) as [model_data|e] eqn:Htrain.
  2:{ left. split; [reflexivity|]. simpl. rewrite drop_app_length.
      simpl. intros [H|[]]. discriminate. }
  pose proof (train_model_inv _ _ _ _ _ _ Htrain)
    as (m & _ & _ & _ & Hauc & Hacc & Hn & Ht).
  unfold load_previous_model, save_model, get_object, put_object, emit.
  unfold mbind, M_bind, mret, M_ret. cbn [bucket trace].
  set (old_model := parsed_object (bucket w !! MODEL_KEY r)).
  set (comparison := compare_models model_data old_model).
  destruct (improvement comparison || negb (truthy_opt old_model))%bool eqn:Hsave.
  - right. exists model_data.
    assert (improvement comparison = true \/ truthy_opt old_model = false) as Hdec.
    { apply orb_true_iff in Hsave as [?|Hn']; [now left|right].
      now apply negb_true_iff. }
    unfold getitem. rewrite Hn, Ht, Hauc, Hacc.
    destruct (put_object_error r) as [e|]; cbn [lift bucket trace fst snd].
    + exists []. split; [exact Hdec|]. split; [|now left].
      rewrite <- !app_assoc. reflexivity.
    + exists [PutMetricData]. split; [exact Hdec|]. split; [|now right].
      rewrite <- !app_assoc. reflexivity.
  - left. unfold getitem. rewrite Hn, Ht, Hauc, Hacc.
    cbn [lift bucket trace fst snd]. split; [reflexivity|].
    rewrite <- !app_assoc. rewrite drop_app_length. simpl.
    intros [H|[H|[H|[H|[]]]]]; discriminate.
Qed.

(** The run of the weekly job once a model was fitted and the bucket
    accepts writes. *)
Lemma weekly_fit_run (r : WeeklyTrainer.run) (w : world) (s3_path : string)
    (df : list row) (model_data : gmap string json) :
  WeeklyTrainer.unload_training_data r = Ok s3_path ->
  WeeklyTrainer.load_training_data_from_s3 r s3_path = Ok df ->
  (100 <= length df)%nat ->
  WeeklyTrainer.train_model (WeeklyTrainer.sk r) (WeeklyTrainer.ck r)
    (fst (fst (prepare_features df))) (snd (fst (prepare_features df)))
    (snd (prepare_features df)) = Ok model_data ->
  WeeklyTrainer.put_object_error r = None ->
  exists resp eval_data,
    WeeklyTrainer.lambda_handler r w
    = (resp,
       {| bucket := <[WeeklyTrainer.EVAL_KEY r := JsonText (JDict eval_data)]>
                      (<[WeeklyTrainer.MODEL_KEY r := JsonText (JDict model_data)]>
                         (bucket w));
          trace := trace w
                   ++ [TrainModel; PutObject (WeeklyTrainer.MODEL_KEY r);
                       PutObject (WeeklyTrainer.EVAL_KEY r); PutMetricData] |}) /\
    statusCode resp = 200%Z.
Proof.
  intros Hunload Hload Hlen Htrain Hput.
  pose proof (weekly_train_model_inv _ _ _ _ _ _ Htrain)
    as (m & _ & _ & _ & Hauc & Hpr & Hn & Ht & Hv & Hat).
  unfold WeeklyTrainer.lambda_handler, WeeklyTrainer.lambda_handler_try.
  unfold mbind, M_bind, lift. rewrite Hunload, Hload.
  destruct (Nat.ltb_spec (length df) 100) as [Hlt|_]; [lia|].
  destruct (prepare_features df) as [[X y] names]. cbn [fst snd] in Htrain.
  cbn [emit lift]. rewrite Htrain.
  unfold WeeklyTrainer.save_model, WeeklyTrainer.save_evaluation_metrics.
  unfold get_object, put_object, emit, lift.
  unfold mbind, M_bind, mret, M_ret. cbn [bucket trace].
  unfold getitem. rewrite Hput, Hn, Ht, Hauc, Hpr, Hv, Hat.
  cbn [bucket trace fst snd].
  eexists _, _. split.
  { f_equal. f_equal. rewrite <- !app_assoc. reflexivity. }
  reflexivity.
Qed.

(** C6, on the code.  The training job writes the deployed key, or attempts
    to, only after [compare_models] has run and reported an improvement or
    no previous model exists.  The weekly job has no comparison: on 100 rows,
    a fit of AUC 0.60 replaces a deployed model of AUC 0.95, and the events
    of the run are the fit, the two writes and the metrics. *)
Theorem weekly_run_writes_without_decision :
  (forall (r : run) (w : world),
      let w' := snd (lambda_handler r w) in
      let old_model := parsed_object (bucket w !! MODEL_KEY r) in
      (bucket w' = bucket w /\
       ~ In (PutObject (MODEL_KEY r)) (drop (length (trace w)) (trace w'))) \/
      (exists model_data later,
          (improvement (compare_models model_data old_model) = true \/
           truthy_opt old_model = false) /\
          trace w' = trace w
                     ++ [TrainModel; GetObject (MODEL_KEY r);
                         CompareModels
                           (improvement (compare_models model_data old_model));
                         PutObject (MODEL_KEY r)] ++ later /\
          (bucket w' = bucket w \/
           bucket w' = <[MODEL_KEY r := JsonText (JDict model_data)]> (bucket w)))) /\
  (exists resp w' model_data,
      WeeklyTrainer.lambda_handler
        (Examples.weekly_run Examples.hundred_rows 0.60)
        (Examples.world_with "models/match_lr/model.json"
           (Examples.deployed (JNum 0.95) (JNum 0.95))) = (resp, w') /\
      statusCode resp = 200%Z /\
      bucket w' !! "models/match_lr/model.json"
        = Some (JsonText (JDict model_data)) /\
      model_data !! "auc_score" = Some (JNum 0.60) /\
      trace w' = [TrainModel; PutObject "models/match_lr/model.json";
                  PutObject "models/match_lr/eval.json"; PutMetricData]).
Proof.
  split; [exact handler_writes_after_decision|].
  destruct (WeeklyTrainer.train_model (Examples.flat_fit 0.60 0.60) Examples.noon
              (fst (fst (prepare_features Examples.hundred_rows)))
              (snd (fst (prepare_features Examples.hundred_rows)))
              (snd (prepare_features Examples.hundred_rows)))
    as [model_data|] eqn:Htrain; [|discriminate Htrain].
  destruct (weekly_fit_run (Examples.weekly_run Examples.hundred_rows 0.60)
              (Examples.world_with "models/match_lr/model.json"
                 (Examples.deployed (JNum 0.95) (JNum 0.95)))
              "s3://curated/training_data/weekly/20240101/"
              Examples.hundred_rows model_data)
    as (resp & eval_data & Hrun & Hstatus);
    [reflexivity | reflexivity
    | unfold Examples.hundred_rows; rewrite length_replicate; lia
    | exact Htrain | reflexivity |].
  pose proof (weekly_train_model_inv _ _ _ _ _ _ Htrain)
    as (m & Hfit & _ & _ & Hauc & _).
  injection Hfit as <-.
  eexists resp, _, model_data. split; [exact Hrun|]. split; [exact Hstatus|].
  cbn [bucket trace Examples.weekly_run WeeklyTrainer.MODEL_KEY
       WeeklyTrainer.EVAL_KEY Examples.world_with].
  split; [|split; [exact Hauc | reflexivity]].
  rewrite lookup_insert_ne by discriminate. apply lookup_insert_eq.
Qed.

End TrainingRunFacts.

(** ** Further properties of the rule features *)

Section TaxonomyFacts.

Import Text Matcher.

Lemma append_nil_l (t : string) : (EmptyString ++ t)%string = t.
Proof. reflexivity. Qed.

Lemma append_cons (c : ascii) (s t : string) :
  (String c s ++ t)%string = String c (s ++ t)%string.
Proof. reflexivity. Qed.

Lemma append_assoc (s t u : string) :
  ((s ++ t) ++ u)%string = (s ++ (t ++ u))%string.
Proof.
  induction s as [|c s IH]; [reflexivity|].
  rewrite !append_cons. now rewrite IH.
Qed.

Lemma occurs_trans (a b c : string) : occurs a b -> occurs b c -> occurs a c.
Proof.
  intros (p1 & q1 & ->) (p2 & q2 & ->).
  exists (p2 ++ p1)%string, (q1 ++ q2)%string.
  now rewrite !append_assoc.
Qed.

Lemma first_label_head (label : string) (keywords : list string)
    (rest : list (string * list string)) (text_lower k : string) :
  In k keywords -> occurs k text_lower ->
  first_label ((label, keywords) :: rest) text_lower = label.
Proof.
  intros Hin Hocc. simpl.
  replace (existsb _ keywords) with true; [reflexivity|].
  symmetry. apply any_keyword_occurs. eauto.
Qed.

(** A label that [first_label] returns was decided by one of its own
    keywords. *)
Lemma first_label_hit (table : list (string * list string))
    (text_lower label : string) (keywords : list string) :
  NoDup (map fst table) ->
  In (label, keywords) table ->
  label <> EmptyString ->
  first_label table text_lower = label ->
  exists k, In k keywords /\ occurs k text_lower.
Proof.
  induction table as [|[l ks] table IH]; intros Hnd Hin Hne Hres; [destruct Hin|].
  simpl in Hnd. apply NoDup_cons in Hnd as [Hfresh Hnd].
  simpl in Hres. destruct (existsb _ ks) eqn:Hks.
  - subst l. destruct Hin as [[= <-]|Hin].
    + now apply any_keyword_occurs.
    + exfalso. apply Hfresh. apply list_elem_of_In.
      apply in_map_iff. exists (label, keywords). auto.
  - destruct Hin as [[= <- <-]|Hin].
    + exfalso. apply Hfresh. clear -Hres Hne.
      induction table as [|[l' ks'] table IH]; simpl in *; [congruence|].
      destruct (existsb _ ks'); [subst; left | right; auto].
    + now apply IH.
Qed.

Lemma first_label_in_table (table : list (string * list string))
    (text_lower : string) :
  first_label table text_lower = EmptyString \/
  In (first_label table text_lower) (map fst table).
Proof.
  induction table as [|[l ks] table IH]; simpl; [now left|].
  destruct (existsb _ ks); [right; now left|].
  destruct IH; [now left | right; now right].
Qed.

(** X1.  A challenge text in which "retail", "fintech", "edtech" or
    "biotech" occurs is classified as [technology], whatever else it
    mentions: each of these keywords of a later entry contains a keyword of
    the first entry ("ai" or "tech"), and the first entry that matches
    wins. *)
Theorem industry_keywords_shadowed_by_technology :
  forall (text k : string),
    In k ["retail"; "fintech"; "edtech"; "biotech"] ->
    occurs k (lower text) ->
    _extract_industry_from_text text = "technology" /\
    (forall c, ~ occurs "technology" (field_lower (industry c)) ->
               industry_match text c = 0%R).
Proof.
  intros text k Hk Hocc.
  assert (_extract_industry_from_text text = "technology") as Hres.
  { unfold _extract_industry_from_text, industry_keywords.
    simpl in Hk. destruct Hk as [<-|[<-|[<-|[<-|[]]]]].
    - apply (first_label_head _ _ _ _ "ai"); [simpl; auto|].
      apply occurs_trans with "retail"; [|exact Hocc].
      exists "ret", "l". reflexivity.
    - apply (first_label_head _ _ _ _ "tech"); [simpl; auto|].
      apply occurs_trans with "fintech"; [|exact Hocc].
      exists "fin", "". reflexivity.
    - apply (first_label_head _ _ _ _ "tech"); [simpl; auto|].
      apply occurs_trans with "edtech"; [|exact Hocc].
      exists "ed", "". reflexivity.
    - apply (first_label_head _ _ _ _ "tech"); [simpl; auto|].
      apply occurs_trans with "biotech"; [|exact Hocc].
      exists "bio", "". reflexivity. }
  split; [exact Hres|].
  intros c Hno. unfold industry_match. rewrite Hres.
  apply contains_false_iff in Hno. rewrite Hno. reflexivity.
Qed.

(** X1, at an input: a text about retail, against a retail candidate. *)
Lemma industry_keywords_shadowed_by_technology_witness :
  _extract_industry_from_text "Retail analytics for malls" = "technology" /\
  (forall c, ~ occurs "technology" (field_lower (industry c)) ->
             industry_match "Retail analytics for malls" c = 0%R).
Proof.
  apply (industry_keywords_shadowed_by_technology
           "Retail analytics for malls" "retail").
  - simpl. auto.
  - exists "", " analytics for malls". reflexivity.
Defined.

Lemma country_labels_NoDup : NoDup (map fst country_keywords).
Proof.
  apply NoDup_ListNoDup. simpl.
  repeat (constructor; [simpl; intuition discriminate|]). constructor.
Qed.

(** X2.  A challenge text in which "us" occurs (as in "business" or
    "Australia") is located in the united states; so the extractor never
    answers [australia], and a candidate whose country is Australia never
    gets a geographic match. *)
Theorem country_us_shadows_australia :
  (forall text, occurs "us" (lower text) ->
                _extract_country_from_text text = "united states") /\
  (forall text, _extract_country_from_text text <> "australia") /\
  (forall text c, field_lower (country c) = "australia" ->
                  geo_match text c = 0%R).
Proof.
  assert (forall text, occurs "us" (lower text) ->
                       _extract_country_from_text text = "united states") as Hus.
  { intros text Hocc. unfold _extract_country_from_text, country_keywords.
    apply (first_label_head _ _ _ _ "us"); [simpl; auto | exact Hocc]. }
  assert (forall text, _extract_country_from_text text <> "australia") as Hnever.
  { intros text Hres.
    destruct (first_label_hit country_keywords (lower text) "australia"
                ["australia"; "australian"] country_labels_NoDup)
      as (k & Hk & Hocc); [simpl; tauto | discriminate | exact Hres |].
    assert (occurs "us" (lower text)) as Hus'.
    { simpl in Hk. destruct Hk as [<-|[<-|[]]].
      - apply occurs_trans with "australia"; [|exact Hocc].
        exists "a", "tralia". reflexivity.
      - apply occurs_trans with "australian"; [|exact Hocc].
        exists "a", "tralian". reflexivity. }
    rewrite (Hus text Hus') in Hres. discriminate. }
  split; [exact Hus|]. split; [exact Hnever|].
  intros text c Hc. unfold geo_match. rewrite Hc.
  specialize (Hnever text). unfold _extract_country_from_text in *.
  destruct (first_label_in_table country_keywords (lower text)) as [->|Hin];
    [reflexivity|].
  remember (first_label country_keywords (lower text)) as label eqn:Hl.
  clear Hl. simpl in Hin.
  repeat (destruct Hin as [<-|Hin]; [first [reflexivity | congruence]|]).
  destruct Hin.
Qed.

(** X2, at an input: a text that mentions a business in Australia. *)
Lemma country_us_shadows_australia_witness :
  _extract_country_from_text "A growing business in Australia" = "united states".
Proof.
  apply (proj1 country_us_shadows_australia "A growing business in Australia").
  exists "a growing b", "iness in australia". reflexivity.
Defined.

End TaxonomyFacts.

Section GeoAndNameFacts.

Import Text Matcher.

Lemma resolved_label_in_table table text_lower label :
  resolves_to table text_lower label -> In label (map fst table).
Proof.
  intros (before & keywords & after & -> & _).
  rewrite map_app, in_app_iff. right. simpl. auto.
Qed.

(** X3.  [geo_match] follows the rule of [industry_match] on the country
    taxonomy: the text resolves to the first entry one of whose keywords
    occurs in the lower-cased text, and the feature is 1.0 exactly when that
    label occurs in the candidate's lower-cased country, and 0.0 otherwise,
    also when no entry resolves. *)
Theorem geo_match_first_entry_wins :
  (forall text c label,
      resolves_to country_keywords (lower text) label ->
      (occurs label (field_lower (country c)) /\ geo_match text c = 1%R) \/
      (~ occurs label (field_lower (country c)) /\ geo_match text c = 0%R)) /\
  (forall text c,
      (forall label, ~ resolves_to country_keywords (lower text) label) ->
      geo_match text c = 0%R).
Proof.
  split.
  - intros text c label Hres. unfold geo_match, _extract_country_from_text.
    rewrite (first_label_resolved _ _ _ Hres).
    assert (nonempty label = true) as ->.
    { apply resolved_label_in_table in Hres. simpl in Hres.
      repeat (destruct Hres as [<-|Hres]; [reflexivity|]). destruct Hres. }
    simpl.
    destruct (contains label (field_lower (country c))) eqn:Hc.
    + left. split; [now apply contains_occurs | reflexivity].
    + right. split; [now apply contains_false_iff | reflexivity].
  - intros text c Hnone. unfold geo_match, _extract_country_from_text.
    now rewrite (first_label_unresolved _ _ Hnone).
Qed.

(** X3, at an input: a text that names Canada, against a candidate in
    Canada. *)
Lemma geo_match_first_entry_wins_witness :
  (occurs "canada" (field_lower (country (Examples.candidate_in "Retail"))) /\
   geo_match "a partner in canada" (Examples.candidate_in "Retail") = 1%R) \/
  (~ occurs "canada" (field_lower (country (Examples.candidate_in "Retail"))) /\
   geo_match "a partner in canada" (Examples.candidate_in "Retail") = 0%R).
Proof.
  apply (proj1 geo_match_first_entry_wins "a partner in canada"
           (Examples.candidate_in "Retail") "canada").
  exists [("united states", ["usa"; "us"; "united states"; "america"])],
         ["canada"; "canadian"], (tl (tl country_keywords)).
  split; [reflexivity|]. split.
  - intros l ks k [[= <- <-]|[]] Hk.
    apply contains_false_iff.
    simpl in Hk. repeat (destruct Hk as [<-|Hk]; [reflexivity|]). destruct Hk.
  - exists "canada". split; [simpl; auto|].
    exists "a partner in ", "". reflexivity.
Defined.

Lemma name_similarity_cases (text : string) (c : candidate) :
  let A := word_set (_extract_company_name_from_text text) in
  let B := word_set (field_lower (company_name c)) in
  (A = ∅ \/ B = ∅ -> name_similarity text c = 0%R) /\
  (A <> ∅ -> B <> ∅ ->
   name_similarity text c = (INR (size (A ∩ B)) / INR (size (A ∪ B)))%R).
Proof.
  cbv zeta. unfold name_similarity.
  generalize (_extract_company_name_from_text text) (field_lower (company_name c)).
  intros cn dn. split.
  - intros Hempty.
    destruct (nonempty cn && nonempty dn)%bool; [|reflexivity].
    destruct Hempty as [H | H].
    + rewrite (bool_decide_eq_true_2 (word_set cn = ∅)) by exact H. reflexivity.
    + rewrite (bool_decide_eq_true_2 (word_set dn = ∅)) by exact H.
      rewrite andb_false_r. reflexivity.
  - intros HA HB.
    assert (nonempty cn = true) as ->.
    { destruct cn; [|reflexivity]. exfalso. apply HA. reflexivity. }
    assert (nonempty dn = true) as ->.
    { destruct dn; [|reflexivity]. exfalso. apply HB. reflexivity. }
    rewrite !bool_decide_eq_false_2 by assumption.
    rewrite bool_decide_eq_false_2 by set_solver.
    reflexivity.
Qed.

(** X4.  [name_similarity] is the Jaccard index of the two word sets: it
    lies in [0, 1]; it is 0.0 when either set is empty, and otherwise the
    number of shared words over the number of distinct words; it is 1.0
    exactly when the two sets are equal and not empty, and positive exactly
    when they share a word. *)
Theorem name_similarity_jaccard (text : string) (c : candidate) :
  let A := word_set (_extract_company_name_from_text text) in
  let B := word_set (field_lower (company_name c)) in
  (0 <= name_similarity text c <= 1)%R /\
  (A = ∅ \/ B = ∅ -> name_similarity text c = 0%R) /\
  (A <> ∅ -> B <> ∅ ->
   name_similarity text c = (INR (size (A ∩ B)) / INR (size (A ∪ B)))%R) /\
  (name_similarity text c = 1%R <-> A = B /\ A <> ∅) /\
  ((0 < name_similarity text c)%R <-> exists w, w ∈ A /\ w ∈ B).
Proof.
  intros A B.
  destruct (name_similarity_cases text c) as [Hzero Hratio].
  fold A in Hzero, Hratio. fold B in Hzero, Hratio.
  destruct (decide (A = ∅)) as [HA|HA].
  { rewrite (Hzero (or_introl HA)).
    split; [lra|]. split; [auto|]. split; [tauto|]. split.
    - split; [lra | tauto].
    - split; [lra | intros (w & Hw & _); set_solver]. }
  destruct (decide (B = ∅)) as [HB|HB].
  { rewrite (Hzero (or_intror HB)).
    split; [lra|]. split; [auto|]. split; [tauto|]. split.
    - split; [lra | intros [-> _]; contradiction].
    - split; [lra | intros (w & _ & Hw); set_solver]. }
  rewrite (Hratio HA HB).
  assert (size (A ∩ B) <= size (A ∪ B))%nat as Hle
    by (apply subseteq_size; set_solver).
  assert (0 < size (A ∪ B))%nat as Hpos.
  { assert (size (A ∪ B) ≠ 0%nat); [|lia].
    rewrite size_non_empty_iff. set_solver. }
  assert (0 < INR (size (A ∪ B)))%R as HposR by (apply lt_0_INR; lia).
  assert (0 <= INR (size (A ∩ B)) <= INR (size (A ∪ B)))%R as HR.
  { split; [apply pos_INR | apply le_INR; lia]. }
  split.
  { split.
    - apply Rmult_le_pos; [lra | left; now apply Rinv_0_lt_compat].
    - apply Rmult_le_reg_r with (INR (size (A ∪ B))); [exact HposR|].
      unfold Rdiv. rewrite Rmult_assoc, Rinv_l by lra. lra. }
  split; [intros [?|?]; contradiction|]. split; [reflexivity|]. split.
  - split.
    + intros H1.
      assert (INR (size (A ∩ B)) = INR (size (A ∪ B))) as Heq.
      { apply Rmult_eq_reg_r with (/ INR (size (A ∪ B)))%R.
        - fold (Rdiv (INR (size (A ∩ B))) (INR (size (A ∪ B)))). rewrite H1.
          rewrite Rinv_r by lra. reflexivity.
        - apply Rinv_neq_0_compat. lra. }
      apply INR_eq in Heq.
      assert (A ∩ B = A ∪ B) as Hsets
        by (apply set_subseteq_size_eq; [set_solver | lia]).
      split; [set_solver | exact HA].
    + intros [<- _].
      replace (A ∩ A) with A by set_solver.
      replace (A ∪ A) with A in * by set_solver.
      unfold Rdiv. apply Rinv_r. lra.
  - split.
    + intros Hgt.
      assert (size (A ∩ B) ≠ 0%nat) as Hne.
      { intros H0. rewrite H0 in Hgt. simpl in Hgt.
        unfold Rdiv in Hgt. rewrite Rmult_0_l in Hgt. lra. }
      apply size_non_empty_iff in Hne.
      apply set_choose in Hne as [w Hw]. exists w. set_solver.
    + intros (w & HwA & HwB).
      assert (size (A ∩ B) ≠ 0%nat) as Hne.
      { rewrite size_non_empty_iff. set_solver. }
      apply Rdiv_lt_0_compat; [apply lt_0_INR; lia | exact HposR].
Qed.

(** X4, at an input: a text that names Acme Corp, against the candidate
    named Acme. *)
Lemma name_similarity_jaccard_witness :
  (0 < name_similarity "Acme Corp builds robots" (Examples.candidate_in "Retail"))%R.
Proof.
  apply (proj2 (proj2 (proj2 (proj2
    (name_similarity_jaccard "Acme Corp builds robots"
       (Examples.candidate_in "Retail")))))).
  exists "acme". unfold word_set. rewrite !elem_of_list_to_set.
  split.
  - replace (split (_extract_company_name_from_text "Acme Corp builds robots"))
      with ["acme"; "corp"] by (vm_compute; reflexivity).
    apply list_elem_of_here.
  - replace (split (field_lower (company_name (Examples.candidate_in "Retail"))))
      with ["acme"] by (vm_compute; reflexivity).
    apply list_elem_of_here.
Defined.

Ltac decide_band :=
  match goal with
  | |- context [Rlt_dec ?a ?b] => destruct (Rlt_dec a b)
  end.

Ltac compute_contains :=
  repeat match goal with
  | |- context [contains ?a ?b] =>
      let v := eval vm_compute in (contains a b) in
      change (contains a b) with v
  end.

(** X5.  The rationale text is never empty; it is "General similarity"
    exactly when no band and no flag applies; and it names the industry,
    the geographic and the company-name match exactly when the
    corresponding feature is above its threshold. *)
Theorem generate_reason_bands
    (embedding_sim industry geo name ml : R) :
  let reason :=
    _generate_reason embedding_sim
      {| rf_industry_match := industry; rf_geo_match := geo |} name ml in
  nonempty reason = true /\
  (reason = "General similarity" <->
   (embedding_sim <= 0.4 /\ industry <= 0 /\ geo <= 0 /\ name <= 0.5
    /\ ml <= 0.5)%R) /\
  (contains "Industry match" reason = true <-> (0 < industry)%R) /\
  (contains "Geographic match" reason = true <-> (0 < geo)%R) /\
  (contains "Company name similarity" reason = true <-> (0.5 < name)%R) /\
  (contains "ML prediction" reason = true <-> (0.5 < ml)%R) /\
  (contains "content similarity" reason = true <-> (0.4 < embedding_sim)%R).
Proof.
  cbv zeta. unfold _generate_reason. cbn [rf_industry_match rf_geo_match].
  repeat decide_band; cbn [app is_empty join];
    compute_contains;
    (split; [reflexivity|]);
    repeat split; intros; try discriminate; try reflexivity; try lra.
Qed.

End GeoAndNameFacts.

(** ** Further properties of the similarity and of the learned score *)

Section SimilarityFacts.

Import Matcher.

Lemma dot_comm (a b : list R) : dot a b = dot b a.
Proof.
  revert b. induction a as [|x a IH]; intros [|y b]; try reflexivity.
  rewrite !dot_cons, IH. lra.
Qed.

Lemma dot_scale_l (k : R) (a b : list R) :
  dot (map (Rmult k) a) b = (k * dot a b)%R.
Proof.
  revert b. induction a as [|x a IH]; intros [|y b]; simpl;
    try (unfold dot; simpl; lra).
  rewrite !dot_cons, IH. lra.
Qed.

Lemma dot_scale_both (k : R) (a : list R) :
  dot (map (Rmult k) a) (map (Rmult k) a) = (k * k * dot a a)%R.
Proof.
  rewrite dot_scale_l, dot_comm, dot_scale_l. lra.
Qed.

Lemma norm_scale (k : R) (a : list R) :
  (0 <= k)%R -> norm (map (Rmult k) a) = (k * norm a)%R.
Proof.
  intros Hk. unfold norm. rewrite dot_scale_both.
  rewrite sqrt_mult_alt by nra.
  rewrite sqrt_square by exact Hk. reflexivity.
Qed.

Lemma cosine_similarity_formula (a b : list R) :
  a <> [] -> b <> [] -> length a = length b ->
  calculate_cosine_similarity a b
  = (dot a b / (handle_zeros_in_scale (norm a) * handle_zeros_in_scale (norm b)))%R.
Proof.
  intros Ha Hb Hlen. unfold calculate_cosine_similarity, cosine_similarity.
  destruct a; [contradiction|]. destruct b; [contradiction|].
  cbn [is_empty orb]. apply Nat.eqb_eq in Hlen. rewrite Hlen.
  apply cosine_of_rows.
Qed.

(** X6.  The similarity does not depend on the order of its two arguments,
    and two non-empty vectors of different lengths have similarity 0.0: the
    dimension error of the library is swallowed, not reported. *)
Theorem cosine_similarity_symmetric :
  (forall a b : list R,
      calculate_cosine_similarity a b = calculate_cosine_similarity b a) /\
  (forall a b : list R,
      length a <> length b -> calculate_cosine_similarity a b = 0%R).
Proof.
  split.
  - intros a b. unfold calculate_cosine_similarity, cosine_similarity.
    rewrite (orb_comm (is_empty b)).
    destruct (is_empty a || is_empty b)%bool; [reflexivity|].
    rewrite (Nat.eqb_sym (length b)).
    destruct (Nat.eqb _ _); [|reflexivity].
    simpl. apply dot_comm.
  - intros a b Hlen. unfold calculate_cosine_similarity, cosine_similarity.
    destruct (is_empty a || is_empty b)%bool; [reflexivity|].
    apply Nat.eqb_neq in Hlen. now rewrite Hlen.
Qed.

(** X6, at an input: a vector of two entries against one of three. *)
Lemma cosine_similarity_symmetric_witness :
  calculate_cosine_similarity [1; 2]%R [1; 2; 3]%R = 0%R.
Proof.
  apply (proj2 cosine_similarity_symmetric [1; 2]%R [1; 2; 3]%R).
  simpl. lia.
Defined.

(** X7.  The similarity depends on direction only: scaling one vector by a
    positive factor leaves it unchanged, and negating one vector negates
    it. *)
Theorem cosine_similarity_scale_invariant :
  (forall (k : R) (a b : list R), (0 < k)%R ->
      calculate_cosine_similarity (map (Rmult k) a) b
      = calculate_cosine_similarity a b) /\
  (forall a b : list R,
      calculate_cosine_similarity (map Ropp a) b
      = (- calculate_cosine_similarity a b)%R).
Proof.
  split.
  - intros k a b Hk. unfold calculate_cosine_similarity, cosine_similarity.
    rewrite length_map.
    replace (is_empty (map (Rmult k) a)) with (is_empty a) by now destruct a.
    destruct (is_empty a || is_empty b)%bool; [reflexivity|].
    destruct (Nat.eqb _ _); [|reflexivity]. simpl.
    rewrite !cosine_of_rows, dot_scale_l, norm_scale by lra.
    pose proof (norm_nonneg a) as Hn.
    unfold handle_zeros_in_scale.
    destruct (Req_dec_T (k * norm a) 0) as [E|E], (Req_dec_T (norm a) 0) as [E'|E'].
    + pose proof (dot_abs_le_norms a b) as Hd. rewrite E' in Hd.
      replace (dot a b) with 0%R by lra. unfold Rdiv. now rewrite Rmult_0_r, !Rmult_0_l.
    + exfalso. apply Rmult_integral in E. destruct E; lra.
    + exfalso. apply E. rewrite E'. lra.
    + field. split; [|split]; try lra.
      destruct (Req_dec_T (norm b) 0); lra.
  - intros a b. unfold calculate_cosine_similarity, cosine_similarity.
    rewrite length_map.
    replace (is_empty (map Ropp a)) with (is_empty a) by now destruct a.
    destruct (is_empty a || is_empty b)%bool; [lra|].
    destruct (Nat.eqb _ _); [|simpl; lra]. simpl.
    rewrite !cosine_of_rows.
    assert (map Ropp a = map (Rmult (-1)) a) as ->
      by (apply map_ext; intros; lra).
    rewrite dot_scale_l.
    assert (norm (map (Rmult (-1)) a) = norm a) as ->.
    { unfold norm. rewrite dot_scale_both. f_equal. lra. }
    field. split; apply handle_zeros_nonzero.
Qed.

(** X7, at an input: doubling the vector (3, 4). *)
Lemma cosine_similarity_scale_invariant_witness :
  calculate_cosine_similarity (map (Rmult 2) [3; 4]%R) [4; 3]%R
  = calculate_cosine_similarity [3; 4]%R [4; 3]%R.
Proof.
  apply (proj1 cosine_similarity_scale_invariant 2%R [3; 4]%R [4; 3]%R). lra.
Defined.

Lemma dot_take (cs vs : list R) :
  dot cs vs = dot (take (length vs) cs) (take (length cs) vs).
Proof.
  revert vs. induction cs as [|c cs IH]; intros [|v vs]; try reflexivity.
  simpl. rewrite !dot_cons. f_equal. apply IH.
Qed.

(** X8.  [calculate_ml_score] is always strictly between 0 and 1; it reads
    the feature dictionary only at the names of [feature_order], so two
    dictionaries that agree there score the same and an entry under any
    other name is ignored; and where the model has more coefficients than
    names, or more names than coefficients, the surplus is silently
    dropped. *)
Theorem calculate_ml_score_reads_schema_only :
  (forall (model : model_artifact) (features : gmap string R),
      (0 < calculate_ml_score model features < 1)%R) /\
  (forall (model : model_artifact) (f g : gmap string R),
      (forall name, In name (feature_order model) -> f !! name = g !! name) ->
      calculate_ml_score model f = calculate_ml_score model g) /\
  (forall (model : model_artifact) (f : gmap string R) (name : string) (v : R),
      ~ In name (feature_order model) ->
      calculate_ml_score model (<[name := v]> f) = calculate_ml_score model f) /\
  (forall (model : model_artifact) (f : gmap string R),
      calculate_ml_score model f
      = calculate_ml_score
          {| coefficients := take (length (feature_order model)) (coefficients model);
             intercept := intercept model;
             feature_order := take (length (coefficients model)) (feature_order model) |}
          f).
Proof.
  assert (forall (model : model_artifact) (f g : gmap string R),
      (forall name, In name (feature_order model) -> f !! name = g !! name) ->
      calculate_ml_score model f = calculate_ml_score model g) as Hagree.
  { intros model f g Hfg. rewrite !calculate_ml_score_eq. do 3 f_equal.
    apply map_ext_in. intros name Hin. now rewrite (Hfg name Hin). }
  split; [apply ml_score_range|]. split; [exact Hagree|]. split.
  - intros model f name v Hout. apply Hagree. intros n Hn.
    apply lookup_insert_ne. intros ->. contradiction.
  - intros model f. rewrite !calculate_ml_score_eq. cbn [coefficients intercept feature_order].
    f_equal. f_equal.
    rewrite (dot_take (coefficients model)), length_map.
    f_equal. apply firstn_map.
Qed.


End SimilarityFacts.

(** ** Further properties of the ranking and of the entry point *)

Section MatchesFacts.

Import Matcher.

Lemma find_matches_inv (sv : services) (challenge_text : string)
    (industry country : option string) (results : list match_result) :
  find_matches sv challenge_text industry country = Ok results ->
  exists e cs,
    get_embedding sv challenge_text = Ok e /\
    get_candidates_from_athena sv industry country (MAX_CANDIDATES sv) = Ok cs /\
    results = slice_to (TOP_RESULTS sv)
                (sort_by_score
                   (map (score_candidate (load_ml_model (s3_model sv))
                                         challenge_text e) cs)).
Proof.
  unfold find_matches.
  destruct (get_embedding sv challenge_text) as [e|]; simpl; [|discriminate].
  destruct (get_candidates_from_athena sv industry country (MAX_CANDIDATES sv))
    as [cs|]; simpl; [|discriminate].
  intros H. exists e, cs. split; [reflexivity|]. split; [reflexivity|].
  destruct cs as [|c cs]; simpl in H.
  - injection H as <-. unfold slice_to. simpl.
    destruct (0 <=? TOP_RESULTS sv)%Z; rewrite ?take_nil; reflexivity.
  - now injection H as <-.
Qed.





Lemma sorted_split_take (n : nat) (l : list match_result) :
  StronglySorted by_score_desc l ->
  forall x y, In x (take n l) -> In y (drop n l) ->
              (final_score x >= final_score y)%R.
Proof.
  intros Hs. revert n. induction Hs as [|z l Hs IH Hz]; intros n x y Hx Hy.
  - rewrite take_nil in Hx. destruct Hx.
  - destruct n as [|n]; simpl in Hx, Hy; [destruct Hx|].
    destruct Hx as [<-|Hx].
    + rewrite Forall_forall in Hz. apply Hz.
      apply list_elem_of_In in Hy. eapply subseteq_drop. exact Hy.
    + now apply (IH n).
Qed.

(** X11.  With a non-negative [TOP_RESULTS], [find_matches] returns the best
    of the scored candidates: the number returned is the smaller of
    [TOP_RESULTS] and the number of candidates, the candidates returned and
    those left out together are exactly the scored candidates, and no
    candidate left out has a higher final score than one returned. *)
Theorem find_matches_keeps_the_best
    (sv : services) (challenge_text : string) (industry country : option string)
    (e : list R) (cs : list candidate) (results : list match_result) :
  (0 <= TOP_RESULTS sv)%Z ->
  get_embedding sv challenge_text = Ok e ->
  get_candidates_from_athena sv industry country (MAX_CANDIDATES sv) = Ok cs ->
  find_matches sv challenge_text industry country = Ok results ->
  length results = Nat.min (Z.to_nat (TOP_RESULTS sv)) (length cs) /\
  exists left_out,
    Permutation (results ++ left_out)
      (map (score_candidate (load_ml_model (s3_model sv)) challenge_text e) cs) /\
    forall x y, In x results -> In y left_out ->
                (final_score x >= final_score y)%R.
Proof.
  intros Hk He Hcs Hfind.
  apply find_matches_inv in Hfind as (e' & cs' & He' & Hcs' & ->).
  assert (e' = e) as -> by congruence. assert (cs' = cs) as -> by congruence.
  set (scored := map (score_candidate (load_ml_model (s3_model sv))
                                      challenge_text e) cs).
  unfold slice_to. destruct (Z.leb_spec 0 (TOP_RESULTS sv)) as [_|?]; [|lia].
  split.
  - rewrite length_take.
    rewrite <- (Permutation_length (sort_by_score_perm scored)).
    unfold scored. now rewrite length_map.
  - exists (drop (Z.to_nat (TOP_RESULTS sv)) (sort_by_score scored)). split.
    + rewrite take_drop. symmetry. apply sort_by_score_perm.
    + apply sorted_split_take, sort_by_score_sorted.
Qed.

(** X11, at an input: three candidates and a limit of two. *)
Lemma find_matches_keeps_the_best_witness :
  exists results,
    find_matches
      {| get_embedding := fun _ => Ok [1; 0]%R;
         get_candidates_from_athena := fun _ _ _ => Ok Examples.three_candidates;
         s3_model := Raise (ServiceError "NoSuchKey");
         MAX_CANDIDATES := 5000;
         TOP_RESULTS := 2 |} "solar storage" None None = Ok results /\
    length results = 2%nat /\
    exists left_out,
      Permutation (results ++ left_out)
        (map (score_candidate default_model "solar storage" [1; 0]%R)
             Examples.three_candidates) /\
      forall x y, In x results -> In y left_out ->
                  (final_score x >= final_score y)%R.
Proof.
  eexists. split; [reflexivity|].
  apply (find_matches_keeps_the_best
           {| get_embedding := fun _ => Ok [1; 0]%R;
              get_candidates_from_athena := fun _ _ _ => Ok Examples.three_candidates;
              s3_model := Raise (ServiceError "NoSuchKey");
              MAX_CANDIDATES := 5000;
              TOP_RESULTS := 2 |} "solar storage" None None
           [1; 0]%R Examples.three_candidates);
    [simpl; lia | reflexivity | reflexivity | reflexivity].
Defined.

End MatchesFacts.

Section MatcherLambdaFacts.

Import Matcher MatcherLambda.





End MatcherLambdaFacts.

(** ** Properties of the scorer of the snippet *)

Section ScoringFacts.

Import Text Scoring.

(** X13.  [compute_final_score] returns the weighted sum itself whenever
    the four inputs lie in [0, 1] (the clamp is then idle), and it never
    decreases when an input grows. *)
Theorem compute_final_score_weighted_sum :
  (forall e g a m : R,
      (0 <= e <= 1)%R -> (0 <= g <= 1)%R -> (0 <= a <= 1)%R -> (0 <= m <= 1)%R ->
      compute_final_score e g a m = (0.6 * e + 0.2 * g + 0.1 * a + 0.1 * m)%R) /\
  (forall e g a m e' g' a' m' : R,
      (e <= e')%R -> (g <= g')%R -> (a <= a')%R -> (m <= m')%R ->
      (compute_final_score e g a m <= compute_final_score e' g' a' m')%R).
Proof.
  split.
  - intros e g a m He Hg Ha Hm. unfold compute_final_score.
    rewrite Rmin_right by lra. rewrite Rmax_right by lra. reflexivity.
  - intros e g a m e' g' a' m' He Hg Ha Hm. unfold compute_final_score.
    apply Rle_max_compat_l. apply Rle_min_compat_l. lra.
Qed.

(** X13, at an input: the scores of the example at the end of the file. *)
Lemma compute_final_score_weighted_sum_witness :
  compute_final_score 0.85 0.7 0.9 0.5
  = (0.6 * 0.85 + 0.2 * 0.7 + 0.1 * 0.9 + 0.1 * 0.5)%R.
Proof.
  apply (proj1 compute_final_score_weighted_sum); lra.
Defined.



Lemma remove_from_skip (old p s : string) :
  remove_from old (String.length p) (p ++ s)%string = remove_from old 0 s.
Proof.
  induction p as [|c p IH]; [reflexivity|].
  rewrite append_cons. simpl. exact IH.
Qed.

Lemma remove_from_absent (old s : string) :
  ~ occurs old s -> remove_from old 0 s = s.
Proof.
  induction s as [|c s IH]; intros Hno; [reflexivity|].
  cbn [remove_from].
  destruct (String.prefix old (String c s)) eqn:Hp.
  - exfalso. apply Hno. apply prefix_true_iff in Hp as [post Hp].
    exists EmptyString, post. exact Hp.
  - f_equal. apply IH. intros (pre & post & ->). apply Hno.
    exists (String c pre), post. reflexivity.
Qed.

Lemma remove_all_prefixed (c : ascii) (old' v : string) :
  ~ occurs (String c old') v ->
  remove_all (String c old') (String c old' ++ v)%string = v.
Proof.
  intros Hno. unfold remove_all. rewrite append_cons. cbn [remove_from].
  replace (String.prefix (String c old') (String c (old' ++ v)%string)) with true.
  - change (String.length (String c old') - 1)%nat with (String.length old' - 0)%nat.
    rewrite Nat.sub_0_r, remove_from_skip. now apply remove_from_absent.
  - symmetry. apply prefix_true_iff. exists v. reflexivity.
Qed.

Lemma prepare_features_lookup (fo : list string) (i : nat) (name : string)
    (e g a : R) (rule_features : gmap string R) (company : company_features) :
  fo !! i = Some name ->
  prepare_features fo e g a rule_features company !! i
  = head (prepare_features [name] e g a rule_features company).
Proof.
  intros Hi. unfold prepare_features. rewrite list_lookup_fmap, Hi. reflexivity.
Qed.

Lemma prepare_features_industry (e g a : R) (rule_features : gmap string R)
    (company : company_features) (v : string) :
  v <> "match" -> ~ occurs "industry_" v ->
  prepare_features ["industry_" +:+ v] e g a rule_features company
  = [if bool_decide (labels company !! "industry" = Some v) then 1%R else 0%R].
Proof.
  intros Hmatch Hno. unfold prepare_features. cbn [map].
  rewrite (remove_all_prefixed _ _ _ Hno).
  assert (String.eqb ("industry_" +:+ v) "industry_match" = false) as Hm.
  { apply String.eqb_neq. intros H. apply Hmatch.
    now apply (String.app_inj "industry_") in H. }
  rewrite Hm. rewrite !append_cons, append_nil_l.
  cbn -[bool_decide].
  replace (String.prefix EmptyString v) with true by (now destruct v).
  reflexivity.
Qed.

Lemma prepare_features_country (e g a : R) (rule_features : gmap string R)
    (company : company_features) (v : string) :
  ~ occurs "country_" v ->
  prepare_features ["country_" +:+ v] e g a rule_features company
  = [if bool_decide (labels company !! "country" = Some v) then 1%R else 0%R].
Proof.
  intros Hno. unfold prepare_features. cbn [map].
  rewrite (remove_all_prefixed _ _ _ Hno).
  rewrite !append_cons, append_nil_l.
  cbn -[bool_decide].
  replace (String.prefix EmptyString v) with true by (now destruct v).
  reflexivity.
Qed.

(** X15.  The one-hot names written at training time are read back at
    serving time, at whatever position they stand in [feature_order]: for a
    value [v] that is not "match" and in which "industry_" does not occur,
    the feature under [industry_<v>] is 1.0 exactly when the company's
    industry is [v] and 0.0 otherwise; likewise for [country_<v>] when
    "country_" does not occur in [v].  A company without an industry entry
    gets 0.0 under [industry_unknown], the column that training sets to 1
    for a missing industry. *)
Theorem prepare_features_one_hot (fo : list string) (i : nat) (e g a : R)
    (rule_features : gmap string R) (company : company_features) (v : string) :
  (v <> "match" -> ~ occurs "industry_" v ->
   fo !! i = Some ("industry_" +:+ v) ->
   prepare_features fo e g a rule_features company !! i
   = Some (if bool_decide (labels company !! "industry" = Some v)
           then 1%R else 0%R)) /\
  (~ occurs "country_" v ->
   fo !! i = Some ("country_" +:+ v) ->
   prepare_features fo e g a rule_features company !! i
   = Some (if bool_decide (labels company !! "country" = Some v)
           then 1%R else 0%R)) /\
  (labels company !! "industry" = None ->
   fo !! i = Some "industry_unknown" ->
   prepare_features fo e g a rule_features company !! i = Some 0%R).
Proof.
  split; [|split].
  - intros Hmatch Hno Hi.
    rewrite (prepare_features_lookup _ _ _ _ _ _ _ _ Hi).
    now rewrite prepare_features_industry.
  - intros Hno Hi.
    rewrite (prepare_features_lookup _ _ _ _ _ _ _ _ Hi).
    now rewrite prepare_features_country.
  - intros Hnone Hi.
    rewrite (prepare_features_lookup _ _ _ _ _ _ _ _ Hi).
    change "industry_unknown" with ("industry_" +:+ "unknown").
    rewrite prepare_features_industry.
    + rewrite Hnone. reflexivity.
    + discriminate.
    + apply contains_false_iff. reflexivity.
Qed.

(** X15, at an input: a model whose third feature is [industry_fintech],
    and a fintech company. *)
Lemma prepare_features_one_hot_witness :
  prepare_features ["embedding_similarity"; "geo_match"; "industry_fintech"]
    0.8 0.5 0.5 ∅
    {| numbers := ∅; labels := <["industry" := "fintech"]> ∅ |} !! 2%nat
  = Some (if bool_decide
               (labels {| numbers := ∅; labels := <["industry" := "fintech"]> ∅ |}
                  !! "industry" = Some "fintech")
          then 1%R else 0%R).
Proof.
  apply (proj1 (prepare_features_one_hot
                  ["embedding_similarity"; "geo_match"; "industry_fintech"] 2
                  0.8 0.5 0.5 ∅
                  {| numbers := ∅; labels := <["industry" := "fintech"]> ∅ |}
                  "fintech")).
  - discriminate.
  - apply contains_false_iff. reflexivity.
  - reflexivity.
Defined.

End ScoringFacts.

(** ** Further properties of the training table *)

Section TrainingTableFacts.

Import Trainer.

Lemma one_hot_cell (f : row -> option string) (v : string) (df : list row)
    (i : nat) (r : row) :
  df !! i = Some r ->
  one_hot f v df !! i
  = Some (Some (if bool_decide (default "unknown" (f r) = v) then 1%Q else 0%Q)).
Proof.
  intros Hi. unfold one_hot, fillna.
  rewrite !list_lookup_fmap, Hi. reflexivity.
Qed.

Lemma filled_value_observed (f : row -> option string) (df : list row)
    (i : nat) (r : row) :
  df !! i = Some r ->
  default "unknown" (f r) ∈ unique (fillna "unknown" (map f df)).
Proof.
  intros Hi. apply unique_elem_of. unfold fillna.
  apply list_elem_of_lookup. exists i.
  rewrite !list_lookup_fmap, Hi. reflexivity.
Qed.

(** X16.  In the table [prepare_features] builds, every column has one cell
    for each row and so has the label vector; the j-th industry name
    [industry_<v>] labels the column at the same position, 10 + j, and that
    column holds 1 in the rows whose industry (a missing one reading as
    "unknown") is [v] and 0 in all others; likewise for countries, after the
    industry block.  Each row's own industry and country are among the
    emitted values, so each row has exactly one 1 in either block. *)
Theorem prepare_features_columns_aligned (df : list row) :
  let X := fst (fst (prepare_features df)) in
  let y := snd (fst (prepare_features df)) in
  let names := snd (prepare_features df) in
  let industries := unique (fillna "unknown" (map industry df)) in
  let countries := unique (fillna "unknown" (map country df)) in
  Forall (fun column => length column = length df) X /\
  length y = length df /\
  length X = (10 + length industries + length countries)%nat /\
  (forall j v, industries !! j = Some v ->
     names !! (10 + j)%nat = Some ("industry_" +:+ v) /\
     X !! (10 + j)%nat = Some (one_hot industry v df)) /\
  (forall j v, countries !! j = Some v ->
     names !! (10 + length industries + j)%nat = Some ("country_" +:+ v) /\
     X !! (10 + length industries + j)%nat = Some (one_hot country v df)) /\
  (forall i r, df !! i = Some r ->
     default "unknown" (industry r) ∈ industries /\
     default "unknown" (country r) ∈ countries /\
     (forall v, one_hot industry v df !! i
                = Some (Some (if bool_decide (default "unknown" (industry r) = v)
                              then 1%Q else 0%Q))) /\
     (forall v, one_hot country v df !! i
                = Some (Some (if bool_decide (default "unknown" (country r) = v)
                              then 1%Q else 0%Q)))).
Proof.
  cbv zeta. unfold prepare_features. cbn [fst snd].
  set (industries := unique (fillna "unknown" (map industry df))).
  set (countries := unique (fillna "unknown" (map country df))).
  split; [|split; [|split; [|split; [|split]]]].
  - rewrite !Forall_app. split; [|split].
    + repeat constructor;
        unfold rule_feature_column, filled_column, fillna;
        now rewrite ?length_map.
    + apply Forall_forall. intros column Hc.
      apply list_elem_of_fmap in Hc as (v & -> & _).
      unfold one_hot, fillna. now rewrite !length_map.
    + apply Forall_forall. intros column Hc.
      apply list_elem_of_fmap in Hc as (v & -> & _).
      unfold one_hot, fillna. now rewrite !length_map.
  - apply length_map.
  - rewrite !length_app, !length_map. simpl. lia.
  - intros j v Hj. split.
    + rewrite lookup_app_r by (simpl; lia).
      replace (10 + j - length _)%nat with j by (simpl; lia).
      rewrite lookup_app_l
        by (rewrite length_map; now apply lookup_lt_Some in Hj).
      now rewrite list_lookup_fmap, Hj.
    + rewrite lookup_app_r by (simpl; lia).
      replace (10 + j - length _)%nat with j by (simpl; lia).
      rewrite lookup_app_l
        by (rewrite length_map; now apply lookup_lt_Some in Hj).
      now rewrite list_lookup_fmap, Hj.
  - intros j v Hj. split.
    + rewrite lookup_app_r by (simpl; lia).
      replace (10 + length industries + j - length _)%nat
        with (length industries + j)%nat by (simpl; lia).
      rewrite lookup_app_r by (rewrite length_map; lia).
      rewrite length_map.
      replace (length industries + j - length industries)%nat with j by lia.
      now rewrite list_lookup_fmap, Hj.
    + rewrite lookup_app_r by (simpl; lia).
      replace (10 + length industries + j - length _)%nat
        with (length industries + j)%nat by (simpl; lia).
      rewrite lookup_app_r by (rewrite length_map; lia).
      rewrite length_map.
      replace (length industries + j - length industries)%nat with j by lia.
      now rewrite list_lookup_fmap, Hj.
  - intros i r Hi. split; [now apply (filled_value_observed industry df i)|].
    split; [now apply (filled_value_observed country df i)|].
    split; intros v; now apply one_hot_cell.
Qed.

Lemma prefixed_NoDup (p : string) (values : list string) :
  NoDup values -> NoDup (map (fun v => p +:+ v) values).
Proof.
  intros Hnd. now apply (NoDup_fmap_2 (String.append p)).
Qed.

Lemma fixed_names_NoDup : NoDup fixed_feature_names.
Proof.
  apply NoDup_ListNoDup. unfold fixed_feature_names.
  repeat (constructor; [simpl; intuition discriminate|]). constructor.
Qed.

Lemma feature_names_NoDup (df : list row) :
  "match" ∉ unique (fillna "unknown" (map industry df)) ->
  NoDup (snd (prepare_features df)).
Proof.
  rewrite prepare_features_names.
  set (industries := unique (fillna "unknown" (map industry df))).
  set (countries := unique (fillna "unknown" (map country df))).
  intros Hmatch. apply NoDup_app. split; [apply fixed_names_NoDup|]. split.
  - intros name Hfixed Hin. apply elem_of_app in Hin as [Hin|Hin];
      apply list_elem_of_fmap in Hin as (v & -> & Hv);
      apply list_elem_of_In in Hfixed; unfold fixed_feature_names in Hfixed;
      simpl in Hfixed;
      repeat (destruct Hfixed as [Heq|Hfixed];
              [try discriminate Heq;
               apply (String.app_inj "industry_" "match" v) in Heq;
               subst v; contradiction|]);
      destruct Hfixed.
  - apply NoDup_app. split; [apply prefixed_NoDup, unique_NoDup|]. split.
    + intros name Hi Hc.
      apply list_elem_of_fmap in Hi as (v & -> & _).
      apply list_elem_of_fmap in Hc as (u & Heq & _). discriminate Heq.
    + apply prefixed_NoDup, unique_NoDup.
Qed.

(** X17.  The names of [feature_order] are pairwise distinct if and only if
    no row of the table has the industry "match": that value would emit a
    second [industry_match] beside the rule feature of that name. *)
Theorem feature_names_distinct_iff (df : list row) :
  NoDup (snd (prepare_features df)) <->
  "match" ∉ fillna "unknown" (map industry df).
Proof.
  rewrite <- (unique_elem_of (fillna "unknown" (map industry df)) "match").
  split; [|apply feature_names_NoDup].
  rewrite prepare_features_names.
  intros Hnd Hmatch.
  apply NoDup_app in Hnd as (_ & Hdisj & _).
  apply (Hdisj "industry_match").
  - unfold fixed_feature_names. set_solver.
  - apply elem_of_app. left.
    apply list_elem_of_fmap. exists "match". split; [reflexivity | exact Hmatch].
Qed.

Lemma dict_of_zip_from_notin (keys : list string) (values : list json)
    (acc : gmap string json) (k : string) :
  k ∉ keys ->
  fold_left (fun d kv => <[fst kv := snd kv]> d) (zip keys values) acc !! k
  = acc !! k.
Proof.
  revert values acc. induction keys as [|k0 keys IH]; intros [|v values] acc Hk;
    try reflexivity.
  simpl. rewrite IH by set_solver.
  apply lookup_insert_ne. set_solver.
Qed.

Lemma dict_of_zip_from_lookup (keys : list string) (values : list json)
    (acc : gmap string json) (i : nat) (k : string) (v : json) :
  NoDup keys -> keys !! i = Some k -> values !! i = Some v ->
  fold_left (fun d kv => <[fst kv := snd kv]> d) (zip keys values) acc !! k
  = Some v.
Proof.
  revert values acc i.
  induction keys as [|k0 keys IH]; intros [|v0 values] acc i Hnd Hk Hv;
    try discriminate.
  apply NoDup_cons in Hnd as [Hfresh Hnd]. destruct i as [|i]; simpl in *.
  - injection Hk as ->. injection Hv as ->.
    rewrite dict_of_zip_from_notin by exact Hfresh. apply lookup_insert_eq.
  - now apply (IH values _ i).
Qed.

(** X18.  In the model a training run produces from a table without the
    industry "match" (scikit-learn returning one coefficient per column),
    [feature_importance] maps every name of [feature_order] to the
    coefficient at the same position. *)
Theorem feature_importance_by_name (sk : sklearn) (ck : clock) (df : list row)
    (model_data : gmap string json) :
  coef_per_column sk ->
  "match" ∉ fillna "unknown" (map industry df) ->
  train_model sk ck (fst (fst (prepare_features df)))
              (snd (fst (prepare_features df))) (snd (prepare_features df))
    = Ok model_data ->
  exists (coefs : list Q) (importance : gmap string json),
    model_data !! "coefficients" = Some (JList (map JNum coefs)) /\
    model_data !! "feature_importance" = Some (JDict importance) /\
    forall i name, snd (prepare_features df) !! i = Some name ->
      exists coefficient,
        coefs !! i = Some coefficient /\
        importance !! name = Some (JNum coefficient).
Proof.
  intros Hshape Hmatch Htrain.
  rewrite <- (unique_elem_of (fillna "unknown" (map industry df)) "match")
    in Hmatch.
  pose proof (feature_names_NoDup df Hmatch) as Hnd.
  pose proof (prepare_features_columns df) as Hcols.
  unfold train_model in Htrain.
  destruct (sk (fst (fst (prepare_features df))) (snd (fst (prepare_features df))))
    as [m|] eqn:Hfit; simpl in Htrain; [|discriminate].
  injection Htrain as <-.
  exists (coef_ m), (dict_of_zip (snd (prepare_features df)) (map JNum (coef_ m))).
  split; [repeat (rewrite lookup_insert_ne by discriminate); apply lookup_insert_eq|].
  split; [repeat (rewrite lookup_insert_ne by discriminate); apply lookup_insert_eq|].
  intros i name Hi.
  assert (i < length (coef_ m))%nat as Hlt.
  { rewrite (Hshape _ _ _ Hfit), Hcols. now apply lookup_lt_Some in Hi. }
  destruct (lookup_lt_is_Some_2 _ _ Hlt) as [coefficient Hc].
  exists coefficient. split; [exact Hc|].
  unfold dict_of_zip. apply (dict_of_zip_from_lookup _ _ _ i); [exact Hnd | exact Hi|].
  now rewrite list_lookup_fmap, Hc.
Qed.

(** X18, at an input: the table of four rows and the stand-in fit. *)
Lemma feature_importance_by_name_witness :
  exists model_data : gmap string json,
    train_model (Examples.flat_fit 0.9 0.8) Examples.noon
      (fst (fst (prepare_features Examples.small_table)))
      (snd (fst (prepare_features Examples.small_table)))
      (snd (prepare_features Examples.small_table)) = Ok model_data /\
    exists (coefs : list Q) (importance : gmap string json),
      model_data !! "coefficients" = Some (JList (map JNum coefs)) /\
      model_data !! "feature_importance" = Some (JDict importance) /\
      forall i name,
        snd (prepare_features Examples.small_table) !! i = Some name ->
        exists coefficient,
          coefs !! i = Some coefficient /\
          importance !! name = Some (JNum coefficient).
Proof.
  eexists. split; [reflexivity|].
  apply (feature_importance_by_name (Examples.flat_fit 0.9 0.8) Examples.noon
           Examples.small_table).
  - intros X y m [= <-]. simpl. apply length_map.
  - vm_compute. intros H. repeat (apply elem_of_cons in H as [H|H]; [discriminate H|]).
    now apply elem_of_nil in H.
  - reflexivity.
Defined.

End TrainingTableFacts.

(** ** Further properties of the runs *)

Section RunOutcomeFacts.

Import Trainer.

(** X19.  Every run of the training job answers 200 or 500.  A 500 leaves
    the bucket as it was and carries only an [error] text; a 200 that
    reports [model_saved] false leaves the bucket as it was; so the bucket
    changes only in a run that answers 200 with [model_saved] true.  When
    the data query raises, nothing else happens. *)
Theorem lambda_handler_outcomes (r : run) (w : world) :
  let resp := fst (lambda_handler r w) in
  let w' := snd (lambda_handler r w) in
  (statusCode resp = 200%Z \/ statusCode resp = 500%Z) /\
  (statusCode resp = 500%Z ->
   bucket w' = bucket w /\ exists msg, body resp = <["error" := JStr msg]> ∅) /\
  (body resp !! "model_saved" = Some (JBool false) -> bucket w' = bucket w) /\
  (bucket w' <> bucket w ->
   statusCode resp = 200%Z /\ body resp !! "model_saved" = Some (JBool true)) /\
  (forall e, training_data r = Raise e ->
     w' = w /\ statusCode resp = 500%Z /\
     body resp = <["error" := JStr (exn_str e)]> ∅).
Proof.
  cbv zeta. unfold lambda_handler, lambda_handler_try.
  unfold mbind, M_bind, lift.
  destruct (training_data r) as [df|e].
  2:{ cbn [fst snd statusCode body]. split; [now right|].
      split; [intros _; split; [reflexivity | eauto]|].
      split; [reflexivity|]. split; [intros H; now contradiction H|].
      intros e' [= <-]. repeat split. }
  destruct (length df <? 100)%nat.
  { cbn [fst snd statusCode body mret M_ret]. split; [now left|].
    split; [discriminate|]. split; [reflexivity|].
    split; [intros H; now contradiction H | discriminate]. }
  destruct (prepare_features df) as [[X y] names]. cbn [emit].
  destruct (train_model (sk r) (ck r) X y names) as [model_data|e] eqn:Htrain.
  2:{ cbn [fst snd statusCode body bucket]. split; [now right|].
      split; [intros _; split; [reflexivity | eauto]|].
      split; [reflexivity|]. split; [intros H; now contradiction H | discriminate]. }
  pose proof (train_model_inv _ _ _ _ _ _ Htrain)
    as (m & _ & _ & _ & Hauc & Hacc & Hn & Ht).
  unfold load_previous_model, save_model, get_object, put_object, emit.
  unfold mbind, M_bind, mret, M_ret. cbn [bucket trace].
  set (old_model := parsed_object (bucket w !! MODEL_KEY r)).
  set (comparison := compare_models model_data old_model).
  unfold getitem. rewrite Hn, Ht, Hauc, Hacc.
  destruct (improvement comparison || negb (truthy_opt old_model))%bool.
  - destruct (put_object_error r) as [e|];
      cbn [lift bucket trace fst snd statusCode body].
    + split; [now right|].
      split; [intros _; split; [reflexivity | eauto]|].
      split; [reflexivity|].
      split; [intros H; now contradiction H | discriminate].
    + split; [now left|]. split; [discriminate|].
      split.
      { repeat (rewrite lookup_insert_ne by discriminate).
        rewrite lookup_insert_eq. discriminate. }
      split; [|discriminate]. intros _. split; [reflexivity|].
      repeat (rewrite lookup_insert_ne by discriminate).
      apply lookup_insert_eq.
  - cbn [lift bucket trace fst snd statusCode body].
    split; [now left|]. split; [discriminate|]. split; [reflexivity|].
    split; [intros H; now contradiction H | discriminate].
Qed.

Lemma model_data_nonempty (d : gmap string json) (key : string) (v : json) :
  d !! key = Some v -> d <> ∅.
Proof. intros H ->. rewrite lookup_empty in H. discriminate. Qed.

(** X20.  Running the training job a second time on the same table, with
    the same fit, never writes: whatever the first run did, the second
    reports [model_saved] false and leaves the bucket as the first run left
    it. *)
Theorem rerun_does_not_write (r : run) (w : world) (df : list row) (m : fitted) :
  training_data r = Ok df ->
  (100 <= length df)%nat ->
  sk r (fst (fst (prepare_features df))) (snd (fst (prepare_features df))) = Ok m ->
  put_object_error r = None ->
  let w1 := snd (lambda_handler r w) in
  let resp2 := fst (lambda_handler r w1) in
  let w2 := snd (lambda_handler r w1) in
  statusCode resp2 = 200%Z /\
  body resp2 !! "model_saved" = Some (JBool false) /\
  bucket w2 = bucket w1.
Proof.
  intros Hdata Hlen Hfit Hput. cbv zeta.
  assert (exists model_data,
    train_model (sk r) (ck r) (fst (fst (prepare_features df)))
                (snd (fst (prepare_features df))) (snd (prepare_features df))
      = Ok model_data) as [model_data Htrain].
  { unfold train_model. rewrite Hfit. simpl. eauto. }
  pose proof (train_model_inv _ _ _ _ _ _ Htrain)
    as (m' & _ & _ & _ & Hauc & Hacc & _).
  destruct (handler_fit_run r w df model_data Hdata Hlen Htrain Hput)
    as (resp1 & Hrun1 & _ & _).
  rewrite Hrun1. cbn [snd].
  set (old_model := parsed_object (bucket w !! MODEL_KEY r)) in *.
  set (save1 := (improvement (compare_models model_data old_model)
                 || negb (truthy_opt old_model))%bool) in *.
  match goal with |- context [lambda_handler r ?x] => set (w1 := x) end.
  destruct (handler_fit_run r w1 df model_data Hdata Hlen Htrain Hput)
    as (resp2 & Hrun2 & Hstatus2 & Hsaved2).
  rewrite Hrun2. cbn [fst snd bucket].
  assert ((improvement (compare_models model_data
                          (parsed_object (bucket w1 !! MODEL_KEY r)))
           || negb (truthy_opt (parsed_object (bucket w1 !! MODEL_KEY r))))%bool
          = false) as Hsave2.
  { unfold w1. cbn [bucket]. destruct save1 eqn:Hs1.
    - rewrite lookup_insert_eq. cbn [parsed_object].
      pose proof (model_data_nonempty _ _ _ Hauc) as Hne.
      rewrite (compare_models_numeric model_data model_data
                 (roc_auc m') (report_accuracy m') (roc_auc m') (report_accuracy m')
                 Hauc Hacc Hne)
        by (rewrite ?Hauc, ?Hacc; reflexivity).
      cbn [truthy_opt truthy]. rewrite bool_decide_eq_false_2 by exact Hne.
      cbn [negb]. rewrite orb_false_r.
      rewrite !sub_self_not_above. reflexivity.
    - exact Hs1. }
  rewrite Hsave2 in Hsaved2 |- *.
  split; [exact Hstatus2|]. split; [exact Hsaved2 | reflexivity].
Qed.

(** X20, at an input: no deployed model, a hundred rows, run twice. *)
Lemma rerun_does_not_write_witness :
  statusCode (fst (lambda_handler
                     (Examples.training_run Examples.hundred_rows 0.9 0.8)
                     (snd (lambda_handler
                             (Examples.training_run Examples.hundred_rows 0.9 0.8)
                             {| bucket := ∅; trace := [] |})))) = 200%Z /\
  body (fst (lambda_handler
               (Examples.training_run Examples.hundred_rows 0.9 0.8)
               (snd (lambda_handler
                       (Examples.training_run Examples.hundred_rows 0.9 0.8)
                       {| bucket := ∅; trace := [] |}))))
    !! "model_saved" = Some (JBool false) /\
  bucket (snd (lambda_handler
                 (Examples.training_run Examples.hundred_rows 0.9 0.8)
                 (snd (lambda_handler
                         (Examples.training_run Examples.hundred_rows 0.9 0.8)
                         {| bucket := ∅; trace := [] |}))))
  = bucket (snd (lambda_handler
                   (Examples.training_run Examples.hundred_rows 0.9 0.8)
                   {| bucket := ∅; trace := [] |})).
Proof.
  apply (rerun_does_not_write
           (Examples.training_run Examples.hundred_rows 0.9 0.8)
           {| bucket := ∅; trace := [] |} Examples.hundred_rows
           (Examples.flat_fitted 0.9 0.8
              (fst (fst (prepare_features Examples.hundred_rows))))).
  - reflexivity.
  - unfold Examples.hundred_rows. rewrite length_replicate. lia.
  - reflexivity.
  - reflexivity.
Defined.

End RunOutcomeFacts.

Section ComparisonFacts.

Import Trainer.

(** X21.  Against a previous model with numeric metrics (an absent one
    reading as 0.0), [compare_models] reports the two differences as the
    double subtraction gives them, calls the new model an improvement
    exactly when one of the reported differences is greater than the double
    0.01, and gives the reason that matches its verdict.  A new model with
    the metrics of the deployed one is never an improvement. *)
Theorem compare_models_report (new_model old : gmap string json)
    (new_auc new_accuracy old_auc old_accuracy : Q) :
  new_model !! "auc_score" = Some (JNum new_auc) ->
  new_model !! "accuracy" = Some (JNum new_accuracy) ->
  old <> ∅ ->
  default (JNum 0) (old !! "auc_score") = JNum old_auc ->
  default (JNum 0) (old !! "accuracy") = JNum old_accuracy ->
  let c := compare_models new_model (Some (JDict old)) in
  auc_improvement c = (to_double new_auc - to_double old_auc)%float /\
  accuracy_improvement c
  = (to_double new_accuracy - to_double old_accuracy)%float /\
  (improvement c = true <->
   (0.01 <? auc_improvement c)%float = true \/
   (0.01 <? accuracy_improvement c)%float = true) /\
  reason c = (if improvement c then "Model improved"
              else "Model did not improve significantly") /\
  (new_auc = old_auc -> new_accuracy = old_accuracy -> improvement c = false).
Proof.
  intros Hna Hnc Hne Hoa Hoc. cbv zeta.
  unfold compare_models, compare_models_try, truthy.
  rewrite bool_decide_eq_false_2 by exact Hne. cbn [negb].
  unfold getitem, dict_get. rewrite Hna, Hnc, Hoa, Hoc.
  cbn [mbind result_bind py_sub as_number improvement auc_improvement
       accuracy_improvement reason].
  split; [reflexivity|]. split; [reflexivity|]. split.
  - unfold py_gt. rewrite orb_true_iff. reflexivity.
  - split; [reflexivity|]. intros -> ->.
    rewrite !sub_self_not_above. reflexivity.
Qed.

(** X21, at two inputs a step of 0.01 apart in their digits: 0.96 against a
    deployed 0.95 is an improvement, its difference being
    0.010000000000000009 as doubles; 0.11 against a deployed 0.10 is none,
    its difference being 0.009999999999999995. *)
Lemma compare_models_report_witness :
  improvement
    (compare_models
       (<["auc_score" := JNum 0.96]> (<["accuracy" := JNum 0.8]> ∅))
       (Some (JDict (Examples.deployed (JNum 0.95) (JNum 0.8))))) = true /\
  improvement
    (compare_models
       (<["auc_score" := JNum 0.11]> (<["accuracy" := JNum 0.8]> ∅))
       (Some (JDict (Examples.deployed (JNum 0.10) (JNum 0.8))))) = false.
Proof.
  split.
  - destruct (compare_models_report
                (<["auc_score" := JNum 0.96]> (<["accuracy" := JNum 0.8]> ∅))
                (Examples.deployed (JNum 0.95) (JNum 0.8))
                0.96 0.8 0.95 0.8) as (Ha & _ & Hiff & _).
    + apply lookup_insert_eq.
    + rewrite lookup_insert_ne by discriminate. apply lookup_insert_eq.
    + apply insert_non_empty.
    + reflexivity.
    + reflexivity.
    + apply Hiff. left. rewrite Ha. now vm_compute.
  - destruct (compare_models_report
                (<["auc_score" := JNum 0.11]> (<["accuracy" := JNum 0.8]> ∅))
                (Examples.deployed (JNum 0.10) (JNum 0.8))
                0.11 0.8 0.10 0.8) as (Ha & Hc & Hiff & _).
    + apply lookup_insert_eq.
    + rewrite lookup_insert_ne by discriminate. apply lookup_insert_eq.
    + apply insert_non_empty.
    + reflexivity.
    + reflexivity.
    + apply not_true_is_false. intros Himp. apply Hiff in Himp.
      rewrite Ha, Hc in Himp. destruct Himp as [H|H]; vm_compute in H;
        discriminate H.
Defined.

Lemma weekly_model_has_no_accuracy sk ck X y names old :
  WeeklyTrainer.train_model sk ck X y names = Ok old ->
  old !! "accuracy" = None /\ old <> ∅ /\
  exists old_auc, old !! "auc_score" = Some (JNum old_auc).
Proof.
  unfold WeeklyTrainer.train_model. destruct (sk X y) as [m|]; simpl; [|discriminate].
  intros [= <-]. split; [|split].
  - repeat (rewrite lookup_insert_ne by discriminate). apply lookup_empty.
  - apply insert_non_empty.
  - exists (roc_auc m).
    repeat (rewrite lookup_insert_ne by discriminate). apply lookup_insert_eq.
Qed.

(** X22.  A model written by the weekly job carries no [accuracy]; when the
    training job compares a new model against it, the missing accuracy
    reads as 0.0, so any new model whose accuracy is greater than the
    double 0.01 counts as an improvement, whatever the two AUCs are, and the
    accuracy improvement it reports is the new accuracy itself. *)
Theorem weekly_model_always_improved_on (sk : sklearn) (ck : clock)
    (X : list (list (option Q))) (y : list (option Q)) (names : list string)
    (old new_model : gmap string json) (new_auc new_accuracy : Q) :
  WeeklyTrainer.train_model sk ck X y names = Ok old ->
  new_model !! "auc_score" = Some (JNum new_auc) ->
  new_model !! "accuracy" = Some (JNum new_accuracy) ->
  (0.01 <? to_double new_accuracy)%float = true ->
  improvement (compare_models new_model (Some (JDict old))) = true /\
  accuracy_improvement (compare_models new_model (Some (JDict old)))
  = to_double new_accuracy.
Proof.
  intros Hold Hna Hnc Hacc.
  destruct (weekly_model_has_no_accuracy _ _ _ _ _ _ Hold)
    as (Hnone & Hne & old_auc & Hoa).
  unfold compare_models, compare_models_try, truthy.
  rewrite bool_decide_eq_false_2 by exact Hne. cbn [negb].
  unfold getitem, dict_get. rewrite Hna, Hnc, Hoa, Hnone.
  cbn [default mbind result_bind py_sub as_number improvement
       accuracy_improvement].
  change (to_double 0) with 0%float.
  rewrite (sub_zero_above (to_double new_accuracy)) by exact Hacc.
  split; [|reflexivity].
  apply orb_true_iff. right. exact Hacc.
Qed.

(** X22, at an input: a weekly model of AUC 0.95 against a new model of
    AUC 0.50 and accuracy 0.55. *)
Lemma weekly_model_always_improved_on_witness :
  exists old,
    WeeklyTrainer.train_model (Examples.flat_fit 0.95 0.95) Examples.noon [] [] []
      = Ok old /\
    improvement
      (compare_models
         (<["auc_score" := JNum 0.50]> (<["accuracy" := JNum 0.55]> ∅))
         (Some (JDict old))) = true /\
    accuracy_improvement
      (compare_models
         (<["auc_score" := JNum 0.50]> (<["accuracy" := JNum 0.55]> ∅))
         (Some (JDict old))) = to_double 0.55.
Proof.
  eexists. split; [reflexivity|].
  apply (weekly_model_always_improved_on (Examples.flat_fit 0.95 0.95)
           Examples.noon [] [] [] _ _ 0.50 0.55).
  - reflexivity.
  - apply lookup_insert_eq.
  - rewrite lookup_insert_ne by discriminate. apply lookup_insert_eq.
  - now vm_compute.
Defined.

(** The run of the weekly job, with the evaluation document it writes. *)
Lemma weekly_fit_run_documents (r : WeeklyTrainer.run) (w : world)
    (s3_path : string) (df : list row) (model_data : gmap string json) :
  WeeklyTrainer.unload_training_data r = Ok s3_path ->
  WeeklyTrainer.load_training_data_from_s3 r s3_path = Ok df ->
  (100 <= length df)%nat ->
  WeeklyTrainer.train_model (WeeklyTrainer.sk r) (WeeklyTrainer.ck r)
    (fst (fst (prepare_features df))) (snd (fst (prepare_features df)))
    (snd (prepare_features df)) = Ok model_data ->
  WeeklyTrainer.put_object_error r = None ->
  exists eval_data,
    bucket (snd (WeeklyTrainer.lambda_handler r w))
    = <[WeeklyTrainer.EVAL_KEY r := JsonText (JDict eval_data)]>
        (<[WeeklyTrainer.MODEL_KEY r := JsonText (JDict model_data)]> (bucket w)) /\
    (forall key,
        In key ["auc_score"; "pr_auc_score"; "training_samples"; "test_samples";
                "model_version"; "trained_at"] ->
        eval_data !! key = model_data !! key) /\
    (forall key,
        ~ In key ["auc_score"; "pr_auc_score"; "training_samples"; "test_samples";
                  "model_version"; "trained_at"] ->
        eval_data !! key = None).
Proof.
  intros Hunload Hload Hlen Htrain Hput.
  pose proof (weekly_train_model_inv _ _ _ _ _ _ Htrain)
    as (m & _ & _ & _ & Hauc & Hpr & Hn & Ht & Hv & Hat).
  unfold WeeklyTrainer.lambda_handler, WeeklyTrainer.lambda_handler_try.
  unfold mbind, M_bind, lift. rewrite Hunload, Hload.
  destruct (Nat.ltb_spec (length df) 100) as [Hlt|_]; [lia|].
  destruct (prepare_features df) as [[X y] names]. cbn [fst snd] in Htrain.
  cbn [emit lift]. rewrite Htrain.
  unfold WeeklyTrainer.save_model, WeeklyTrainer.save_evaluation_metrics.
  unfold get_object, put_object, emit, lift.
  unfold mbind, M_bind, mret, M_ret. cbn [bucket trace].
  unfold getitem. rewrite Hput, Hn, Ht, Hauc, Hpr, Hv, Hat.
  cbn [bucket trace fst snd].
  eexists. split; [reflexivity|]. split.
  - intros key Hkey. simpl in Hkey.
    destruct Hkey as [<-|[<-|[<-|[<-|[<-|[<-|[]]]]]]];
      repeat (rewrite lookup_insert_ne by discriminate);
      rewrite lookup_insert_eq; congruence.
  - intros key Hkey. simpl in Hkey.
    repeat (rewrite lookup_insert_ne by (intros <-; tauto)).
    apply lookup_empty.
Qed.

(** X23.  When the model key and the evaluation key differ, a weekly run
    that fits a model leaves two documents in the bucket: the model under
    the model key, and under the evaluation key a report that repeats the
    model's two metrics, sample counts, version and time and holds nothing
    else, in particular no coefficients. *)
Theorem weekly_run_documents (r : WeeklyTrainer.run) (w : world)
    (s3_path : string) (df : list row) (model_data : gmap string json) :
  WeeklyTrainer.unload_training_data r = Ok s3_path ->
  WeeklyTrainer.load_training_data_from_s3 r s3_path = Ok df ->
  (100 <= length df)%nat ->
  WeeklyTrainer.train_model (WeeklyTrainer.sk r) (WeeklyTrainer.ck r)
    (fst (fst (prepare_features df))) (snd (fst (prepare_features df)))
    (snd (prepare_features df)) = Ok model_data ->
  WeeklyTrainer.put_object_error r = None ->
  WeeklyTrainer.MODEL_KEY r <> WeeklyTrainer.EVAL_KEY r ->
  let w' := snd (WeeklyTrainer.lambda_handler r w) in
  bucket w' !! WeeklyTrainer.MODEL_KEY r = Some (JsonText (JDict model_data)) /\
  exists eval_data,
    bucket w' !! WeeklyTrainer.EVAL_KEY r = Some (JsonText (JDict eval_data)) /\
    eval_data !! "auc_score" = model_data !! "auc_score" /\
    eval_data !! "pr_auc_score" = model_data !! "pr_auc_score" /\
    eval_data !! "training_samples" = model_data !! "training_samples" /\
    eval_data !! "test_samples" = model_data !! "test_samples" /\
    eval_data !! "model_version" = model_data !! "model_version" /\
    eval_data !! "trained_at" = model_data !! "trained_at" /\
    eval_data !! "coefficients" = None /\
    eval_data !! "feature_order" = None /\
    (forall key, key <> WeeklyTrainer.MODEL_KEY r ->
                 key <> WeeklyTrainer.EVAL_KEY r ->
                 bucket w' !! key = bucket w !! key).
Proof.
  intros Hunload Hload Hlen Htrain Hput Hkeys. cbv zeta.
  destruct (weekly_fit_run_documents r w s3_path df model_data
              Hunload Hload Hlen Htrain Hput) as (eval_data & -> & Hsame & Hnone).
  split.
  - rewrite lookup_insert_ne by congruence. apply lookup_insert_eq.
  - exists eval_data. split; [apply lookup_insert_eq|].
    repeat (split; [apply Hsame; simpl; tauto|]).
    split; [apply Hnone; simpl; intuition discriminate|].
    split; [apply Hnone; simpl; intuition discriminate|].
    intros key H1 H2. now rewrite !lookup_insert_ne by congruence.
Qed.

(** X23, at an input: the weekly run of the examples over an empty
    bucket. *)
Lemma weekly_run_documents_witness :
  exists model_data,
    bucket (snd (WeeklyTrainer.lambda_handler
                   (Examples.weekly_run Examples.hundred_rows 0.7)
                   {| bucket := ∅; trace := [] |}))
      !! "models/match_lr/model.json" = Some (JsonText (JDict model_data)) /\
    exists eval_data,
      bucket (snd (WeeklyTrainer.lambda_handler
                     (Examples.weekly_run Examples.hundred_rows 0.7)
                     {| bucket := ∅; trace := [] |}))
        !! "models/match_lr/eval.json" = Some (JsonText (JDict eval_data)) /\
      eval_data !! "auc_score" = model_data !! "auc_score" /\
      eval_data !! "coefficients" = None.
Proof.
  destruct (WeeklyTrainer.train_model (Examples.flat_fit 0.7 0.7) Examples.noon
              (fst (fst (prepare_features Examples.hundred_rows)))
              (snd (fst (prepare_features Examples.hundred_rows)))
              (snd (prepare_features Examples.hundred_rows)))
    as [model_data|] eqn:Htrain; [|discriminate Htrain].
  destruct (weekly_run_documents (Examples.weekly_run Examples.hundred_rows 0.7)
              {| bucket := ∅; trace := [] |}
              "s3://curated/training_data/weekly/20240101/"
              Examples.hundred_rows model_data)
    as (Hmodel & eval_data & Heval & Hauc & _ & _ & _ & _ & _ & Hcoef & _);
    [reflexivity | reflexivity
    | unfold Examples.hundred_rows; rewrite length_replicate; lia
    | exact Htrain | reflexivity | discriminate |].
  exists model_data. split; [exact Hmodel|].
  exists eval_data. split; [exact Heval|]. split; [exact Hauc | exact Hcoef].
Defined.

End ComparisonFacts.

(** ** Words, and the features the matcher supplies *)

Section WordFacts.

Import Text Matcher.

Lemma no_space_app (s t : string) :
  no_space (s ++ t)%string = (no_space s && no_space t)%bool.
Proof.
  induction s as [|c s IH]; [reflexivity|].
  rewrite append_cons. simpl. rewrite IH. now rewrite andb_assoc.
Qed.

Lemma split_from_words (word s : string) :
  no_space word = true ->
  Forall (fun w => is_word w = true) (split_from word s).
Proof.
  revert word. induction s as [|c s IH]; intros word Hw; simpl.
  - destruct word; [constructor|]. constructor; [|constructor].
    unfold is_word. now rewrite Hw.
  - destruct (is_space c) eqn:Hc.
    + destruct word.
      * now apply IH.
      * constructor; [unfold is_word; now rewrite Hw | now apply IH].
    + apply IH. rewrite no_space_app. simpl. now rewrite Hw, Hc.
Qed.

Lemma split_from_app (word w s : string) :
  no_space w = true ->
  split_from word (w ++ s)%string = split_from (word ++ w)%string s.
Proof.
  revert word. induction w as [|c w IH]; intros word Hw.
  - rewrite append_nil_l.
    replace (word ++ EmptyString)%string with word; [reflexivity|].
    clear. induction word as [|c word IH]; [reflexivity|].
    rewrite append_cons. now rewrite <- IH.
  - simpl in Hw. apply andb_prop in Hw as [Hc Hw].
    apply negb_true_iff in Hc.
    rewrite append_cons. cbn [split_from]. rewrite Hc.
    rewrite IH by exact Hw. f_equal.
    rewrite append_assoc. reflexivity.
Qed.

Lemma split_join (words : list string) :
  Forall (fun w => is_word w = true) words ->
  split (join " " words) = words.
Proof.
  unfold split. induction 1 as [|w words Hw Hall IH]; [reflexivity|].
  unfold is_word in Hw. apply andb_prop in Hw as [Hne Hns].
  destruct words as [|w' words].
  - cbn [join].
    replace w with (w ++ EmptyString)%string at 1.
    + rewrite split_from_app by exact Hns. rewrite append_nil_l.
      simpl. now rewrite Hne.
    + clear. induction w as [|c w IH]; [reflexivity|].
      rewrite append_cons. now rewrite IH.
  - change (join " " (w :: w' :: words))
      with (w ++ (" " ++ join " " (w' :: words)))%string.
    rewrite split_from_app by exact Hns. rewrite append_nil_l.
    rewrite append_cons, append_nil_l. cbn [split_from].
    change (is_space " ") with true. cbn iota. rewrite Hne.
    f_equal. exact IH.
Qed.

Lemma lower_ascii_space (c : ascii) : is_space (lower_ascii c) = is_space c.
Proof.
  destruct c as [[] [] [] [] [] [] [] []]; reflexivity.
Qed.

Lemma lower_is_word (w : string) : is_word (lower w) = is_word w.
Proof.
  unfold is_word. f_equal.
  - now destruct w.
  - induction w as [|c w IH]; [reflexivity|].
    simpl. now rewrite lower_ascii_space, IH.
Qed.

Lemma lower_app (s t : string) : lower (s ++ t) = (lower s ++ lower t)%string.
Proof.
  induction s as [|c s IH]; [reflexivity|].
  rewrite append_cons. simpl. rewrite IH. reflexivity.
Qed.

Lemma lower_join (words : list string) :
  lower (join " " words) = join " " (map lower words).
Proof.
  induction words as [|w words IH]; [reflexivity|].
  destruct words as [|w' words]; [reflexivity|].
  change (join " " (w :: w' :: words))
    with (w ++ (" " ++ join " " (w' :: words)))%string.
  rewrite !lower_app, IH. reflexivity.
Qed.

(** X24.  The words of the name that [_extract_company_name_from_text]
    returns are the first three words of the text that start with an
    upper-case letter and are longer than two characters, in lower case and
    in the order of the text: splitting the name returns exactly these. *)
Theorem extract_company_name_words (text : string) :
  let capitalized := take 3 (List.filter is_capitalized (split text)) in
  split (_extract_company_name_from_text text) = map lower capitalized /\
  (length (split (_extract_company_name_from_text text)) <= 3)%nat /\
  word_set (_extract_company_name_from_text text)
  = list_to_set (map lower capitalized) /\
  (List.filter is_capitalized (split text) = [] ->
   _extract_company_name_from_text text = EmptyString).
Proof.
  cbv zeta. unfold _extract_company_name_from_text.
  assert (split (lower (join " " (take 3 (List.filter is_capitalized (split text)))))
          = map lower (take 3 (List.filter is_capitalized (split text)))) as Hsplit.
  { rewrite lower_join. apply split_join.
    apply Forall_forall. intros w Hw.
    apply list_elem_of_fmap in Hw as (w0 & -> & Hw0).
    rewrite lower_is_word.
    apply (subseteq_take 3) in Hw0. apply list_elem_of_In, filter_In in Hw0 as [Hw0 _].
    pose proof (split_from_words EmptyString text eq_refl) as Hall.
    rewrite Forall_forall in Hall. apply Hall. now apply list_elem_of_In. }
  split; [exact Hsplit|]. split; [|split].
  - rewrite Hsplit, length_map, length_take. lia.
  - unfold word_set. now rewrite Hsplit.
  - intros ->. reflexivity.
Qed.

Lemma dot_zero_vector (cs vs : list R) :
  Forall (fun v => v = 0%R) vs -> dot cs vs = 0%R.
Proof.
  intros Hz. exact (proj2 (zero_vector_dot vs cs Hz)).
Qed.

(** X25.  [find_matches] supplies three features only.  Against a model
    whose schema starts with the four names the trainer emits first and
    does not repeat [embedding_similarity], [industry_match] or [geo_match]
    later, the learned score of a candidate is the sigmoid of the
    coefficients of these three names times their values plus the
    intercept: the coefficients of [ml_score] and of every later feature
    are multiplied by 0.0. *)
Theorem score_candidate_reads_three_features
    (model : model_artifact) (c0 c1 c2 c3 : R) (others : list R)
    (names : list string) (text : string) (e : list R) (c : candidate) :
  coefficients model = c0 :: c1 :: c2 :: c3 :: others ->
  feature_order model
    = "embedding_similarity" :: "ml_score" :: "industry_match" :: "geo_match"
      :: names ->
  ~ In "embedding_similarity" names ->
  ~ In "industry_match" names ->
  ~ In "geo_match" names ->
  ml_score (score_candidate model text e c)
  = sigmoid (c0 * calculate_cosine_similarity e (embedding_vector c)
             + c2 * industry_match text c
             + c3 * geo_match text c
             + intercept model).
Proof.
  intros Hcoefs Hnames He Hi Hg.
  cbn [score_candidate ml_score calculate_rule_features rf_industry_match
       rf_geo_match].
  rewrite calculate_ml_score_eq, Hcoefs, Hnames. cbn [map].
  rewrite !dot_cons.
  rewrite dot_zero_vector.
  - repeat (rewrite lookup_insert_ne by discriminate).
    rewrite (lookup_insert_ne _ "geo_match" "industry_match") by discriminate.
    rewrite !lookup_insert_eq.
    repeat (rewrite lookup_insert_ne by discriminate).
    rewrite lookup_empty. cbn [default from_option]. unfold Datatypes.id.
    f_equal. lra.
  - apply Forall_forall. intros v Hv.
    apply list_elem_of_fmap in Hv as (name & -> & Hname).
    apply list_elem_of_In in Hname.
    rewrite !lookup_insert_ne by (intros <-; contradiction).
    now rewrite lookup_empty.
Qed.

(** X25, at an input: a model of five features, the last one a one-hot. *)
Lemma score_candidate_reads_three_features_witness :
  ml_score (score_candidate
              {| coefficients := [2; 9; 1; 1; 7]%R;
                 intercept := 0%R;
                 feature_order := ["embedding_similarity"; "ml_score";
                                   "industry_match"; "geo_match";
                                   "industry_fintech"] |}
              "solar storage" [1; 0]%R Examples.opposite_candidate)
  = sigmoid (2 * calculate_cosine_similarity [1; 0]%R
                   (embedding_vector Examples.opposite_candidate)
             + 1 * industry_match "solar storage" Examples.opposite_candidate
             + 1 * geo_match "solar storage" Examples.opposite_candidate
             + 0).
Proof.
  apply (score_candidate_reads_three_features
           {| coefficients := [2; 9; 1; 1; 7]%R;
              intercept := 0%R;
              feature_order := ["embedding_similarity"; "ml_score";
                                "industry_match"; "geo_match";
                                "industry_fintech"] |}
           2 9 1 1 [7]%R ["industry_fintech"]);
    try reflexivity; simpl; intuition discriminate.
Defined.

End WordFacts.
